(** * ember / pyro GUI: background execution and progress monitoring

    A shallow embedding of [python/pyro/gui.py]: the worker thread
    [SolverThread] (its [run] loop, [stop] and the progress heuristic
    [updateProgress]) and the lifecycle methods of [SolverWidget]
    ([run], [pause], [stop]).

    Numbers are IEEE binary64 values (Rocq's primitive floats), so the
    arithmetic of the heuristic is evaluated with the roundings the
    interpreter performs.  Exceptions are explicit: a method returns
    [Ok] with the new objects or [Raise] with the exception that
    escapes it. *)

From Stdlib Require Import Floats ZArith List Lia Bool String.
Import ListNotations.
Set Warnings "-inexact-float".

(** ** The Python run time, as far as the worker uses it *)

(** The exceptions that can escape the modelled methods.  Nothing in
    [gui.py] catches any of them. *)
Inductive exn : Type :=
| ZeroDivisionError
| IndexError
| AttributeError
| ConfigValidationError.

Inductive result (A : Type) : Type :=
| Ok (a : A)
| Raise (e : exn).
Arguments Ok {A} a.
Arguments Raise {A} e.

Definition bind {A B : Type} (r : result A) (k : A -> result B) : result B :=
  match r with
  | Ok a => k a
  | Raise e => Raise e
  end.

Notation "x <- r ;; k" := (bind r (fun x => k))
  (at level 61, r at next level, right associativity).

Definition raises {A : Type} (r : result A) : bool :=
  match r with Ok _ => false | Raise _ => true end.

Module Py.
Local Open Scope float_scope.

(** [a / b] on two Python floats: a zero divisor (of either sign) raises,
    every other operand pair is the IEEE quotient. *)
Definition truediv (a b : float) : result float :=
  if is_zero b then Raise ZeroDivisionError else Ok (a / b).

(** [seq[-1]]. *)
Definition index_last (seq : list float) : result float :=
  match rev seq with
  | [] => Raise IndexError
  | x :: _ => Ok x
  end.

(** The builtin [min(a, b)]: starts from [a] and replaces it by [b] only
    when [b < a]; a NaN [a] is therefore returned as it is. *)
Definition min (a b : float) : float := if b <? a then b else a.

(** The builtin [max(a, b)]: starts from [a] and replaces it by [b] only
    when [b > a]. *)
Definition max (a b : float) : float := if a <? b then b else a.

(** Reading an instance attribute that may not have been assigned yet. *)
Definition getattr {A : Type} (o : option A) : result A :=
  match o with
  | Some a => Ok a
  | None => Raise AttributeError
  end.

End Py.

(** ** numpy's scalar functions

    [np.log10] and the power [A ** 0.5] of a numpy scalar are computed by
    the platform's mathematical library, which is not part of the
    repository: the heuristic takes them as a parameter.  [C99] collects
    the special values the C standard fixes for them; these are all the
    proofs ever use. *)

Record Libm : Type := {
  log10 : float -> float;
  pow_half : float -> float  (* [x ** 0.5] *)
}.

Record C99 (m : Libm) : Prop := {
  log10_nan : log10 m nan = nan;
  log10_neg : forall x, (x <? 0)%float = true -> log10 m x = nan;
  pow_half_nan : pow_half m nan = nan;
  pow_half_one : pow_half m 1%float = 1%float
}.

(** A reference instance, used to run the model on concrete inputs.  The
    special values are those of C99; on finite positive arguments [log10]
    is a series approximation and [x ** 0.5] is the correctly rounded
    square root. *)
Module RefLibm.
Local Open Scope float_scope.

Definition ln2 : float := 0.6931471805599453.
Definition ln10 : float := 2.302585092994046.

(** [sum_{j<=n} u^j / (k + 2j)], by Horner's rule. *)
Fixpoint atanh_tail (n : nat) (k u : float) : float :=
  match n with
  | O => 1 / k
  | S n' => 1 / k + u * atanh_tail n' (k + 2) u
  end.

Definition ln_mantissa (m : float) : float :=
  let t := (m - 1) / (m + 1) in
  2 * (t * atanh_tail 16 1 (t * t)).

Definition float_of_Z (e : Z) : float :=
  if (e <? 0)%Z then - of_uint63 (Uint63.of_Z (- e)) else of_uint63 (Uint63.of_Z e).

Definition ref_log10 (x : float) : float :=
  if is_nan x then nan
  else if x <? 0 then nan
  else if x =? 0 then neg_infinity
  else if x =? infinity then infinity
  else
    let (m, e) := Z.frexp x in
    let (m, e) := if m <? 0.7071067811865476 then (2 * m, (e - 1)%Z) else (m, e) in
    (float_of_Z e * ln2 + ln_mantissa m) / ln10.

Definition ref_pow_half (x : float) : float :=
  if x =? neg_infinity then infinity
  else if x =? 0 then 0
  else sqrt x.

Definition libm : Libm := {| log10 := ref_log10; pow_half := ref_pow_half |}.

End RefLibm.

(** ** The objects shared between the widget and the worker *)

(** [conf.terminationCondition]: the options the heuristic reads.
    [measurement] is [None] for a run to the fixed end time [tEnd]. *)
Record TerminationCondition : Type := {
  measurement : option string;
  tEnd : float;
  steadyPeriod : float;
  tolerance : float
}.

Module Config.
Record t : Type := {
  terminationCondition : TerminationCondition
}.
End Config.

(** The solver object.  [timeVector], [terminationCondition] (the error
    metric) and [progress] are the attributes [gui.py] reads and writes;
    [core] stands for everything else the solver keeps, in whatever type
    the stepping function needs.  The values are Python floats. *)
Module FlameSolver.
Record t {Core : Type} : Type := {
  timeVector : list float;
  terminationCondition : float;
  progress : float;
  core : Core
}.
Arguments t : clear implicits.

Definition set_progress {Core : Type} (p : float) (s : t Core) : t Core :=
  {| timeVector := timeVector s;
     terminationCondition := terminationCondition s;
     progress := p;
     core := core s |}.

(** What a step leaves for the heuristic to read: one more entry of the
    time series and a new value of the error metric. *)
Definition observe {Core : Type} (o : float * float) (s : t Core) : t Core :=
  {| timeVector := timeVector s ++ [fst o];
     terminationCondition := snd o;
     progress := progress s;
     core := core s |}.
End FlameSolver.

(** ** class SolverThread *)

Module SolverThread.
Import FlameSolver.
Local Open Scope float_scope.

(** The attributes of a [SolverThread] instance.  [self.solver] is a
    reference to the shared solver, which the functions below thread
    through explicitly; [refCond] is [None] until the first assignment
    creates the attribute. *)
Record t : Type := {
  conf : Config.t;
  _stop : bool;
  daemon : bool;
  stage : Z;
  frac0 : float;
  refCond : option float
}.

Definition set_stop (b : bool) (self : t) : t :=
  {| conf := conf self; _stop := b; daemon := daemon self;
     stage := stage self; frac0 := frac0 self; refCond := refCond self |}.

Definition enter_stage1 (errNow : float) (self : t) : t :=
  {| conf := conf self; _stop := _stop self; daemon := daemon self;
     stage := 1; frac0 := frac0 self; refCond := Some errNow |}.

(** [SolverThread(solver=..., conf=...)]: the constructor writes to the
    solver it is handed (a new lock, [progress = 0.0]) and returns the
    new thread object. *)
Definition __init__ {Core : Type} (solver : FlameSolver.t Core) (cnf : Config.t)
  : FlameSolver.t Core * t :=
  (set_progress 0.0 solver,
   {| conf := cnf; _stop := false; daemon := true;
      stage := 0; frac0 := 0.15; refCond := None |}).

Definition stop (self : t) : t := set_stop true self.

Section Heuristic.
Context {Core : Type}.
Variable m : Libm.

(** The candidate value of the second stage, before the comparison with
    the published value.  The inner quotient divides two Python floats;
    the outer one divides two numpy scalars and never raises. *)
Definition candidate (self : t) (errNow : float) : result float :=
  let TC := Config.terminationCondition (conf self) in
  r <- Py.getattr (refCond self) ;;
  d <- Py.truediv (errNow - tolerance TC) r ;;
  let A := log10 m (tolerance TC + d) / log10 m (tolerance TC) in
  Ok (Py.min (frac0 self + (1 - frac0 self) * pow_half m A) 1.0).

Definition updateProgress (solver : FlameSolver.t Core) (self : t)
  : result (FlameSolver.t Core * t) :=
  let TC := Config.terminationCondition (conf self) in
  let errNow := terminationCondition solver in
  match measurement TC with
  | None =>
      now <- Py.index_last (timeVector solver) ;;
      p <- Py.truediv now (tEnd TC) ;;
      Ok (set_progress p solver, self)
  | Some _ =>
      if (stage self =? 0)%Z then
        (* First part: getting past the minimum steady-state measurement period *)
        now <- Py.index_last (timeVector solver) ;;
        p <- Py.truediv (frac0 self * now) (steadyPeriod TC) ;;
        Ok (set_progress p solver,
            if errNow <? 1e9 then enter_stage1 errNow self else self)
      else
        (* Second part: vaguely linearizing the approach to steady-state *)
        P <- candidate self errNow ;;
        Ok (set_progress (Py.max P (progress solver)) solver, self)
  end.

(** Successive invocations, each on a new observation. *)
Fixpoint updates (obs : list (float * float)) (st : FlameSolver.t Core * t)
  : result (FlameSolver.t Core * t) :=
  match obs with
  | [] => Ok st
  | o :: rest =>
      st' <- updateProgress (observe o (fst st)) (snd st) ;;
      updates rest st'
  end.

End Heuristic.
End SolverThread.

(** ** SolverThread.run, one atomic action at a time

    The interpreter may switch threads between any two statements, so
    the loop is written as a machine whose program counter names the
    next statement.  [solver.step()] runs under the solver's lock and is
    one action; so is each of the other statements. *)

Module Worker.
Import FlameSolver.

Inductive pc : Type :=
| AtWhile            (* while not self._stop and not done: *)
| AtStep             (*     i += 1; with self.solver.lock: done = self.solver.step() *)
| AtSleep            (*     time.sleep(1e-4) *)
| AtUpdate           (*     if not i % 5: self.updateProgress() *)
| AtDone             (*     if done: self.solver.progress = 1.0 *)
| AtReturn           (* self._stop = True *)
| Finished           (* run() has returned *)
| Died (e : exn).    (* an exception has left run() *)

(** A thread object together with the locals of its [run()] call. *)
Record t : Type := {
  self : SolverThread.t;
  at_ : pc;
  done : bool;
  i : Z
}.

Definition goto (l : pc) (w : t) : t :=
  {| self := self w; at_ := l; done := done w; i := i w |}.

Definition with_self (th : SolverThread.t) (w : t) : t :=
  {| self := th; at_ := at_ w; done := done w; i := i w |}.

(** [threading.Thread.start()]: [run()] begins with [done = 0], [i = 0]. *)
Definition start (th : SolverThread.t) : t :=
  {| self := th; at_ := AtWhile; done := false; i := 0 |}.

(** [threading.Thread.is_alive()]. *)
Definition is_alive (w : t) : bool :=
  match at_ w with
  | Finished | Died _ => false
  | _ => true
  end.

Definition halted (w : t) : bool := negb (is_alive w).

Section Loop.
Context {Core : Type}.
Variable m : Libm.
(** [solver.step()]: the new solver and whether it reports completion. *)
Variable step : FlameSolver.t Core -> FlameSolver.t Core * bool.

Definition state : Type := FlameSolver.t Core * t.

(** One action of the worker thread. *)
Definition next (st : state) : state :=
  let (solver, w) := st in
  match at_ w with
  | AtWhile =>
      if negb (SolverThread._stop (self w)) && negb (done w)
      then (solver, goto AtStep w)
      else (solver, goto AtReturn w)
  | AtStep =>
      let (solver', d) := step solver in
      (solver', {| self := self w; at_ := AtSleep; done := d; i := i w + 1 |})
  | AtSleep => (solver, goto AtUpdate w)
  | AtUpdate =>
      if (i w mod 5 =? 0)%Z then
        match SolverThread.updateProgress m solver (self w) with
        | Ok (solver', th) => (solver', goto AtDone (with_self th w))
        | Raise e => (solver, goto (Died e) w)
        end
      else (solver, goto AtDone w)
  | AtDone =>
      if done w then (set_progress 1.0%float solver, goto AtWhile w)
      else (solver, goto AtWhile w)
  | AtReturn => (solver, goto Finished (with_self (SolverThread.set_stop true (self w)) w))
  | Finished | Died _ => st
  end.

(** [stop()], called on the thread object from any other thread. *)
Definition stop (st : state) : state :=
  (fst st, with_self (SolverThread.stop (self (snd st))) (snd st)).

(** An interleaving: which thread moves next. *)
Inductive move : Type := Work | Stop.

Definition perform (mv : move) (st : state) : state :=
  match mv with
  | Work => next st
  | Stop => stop st
  end.

Fixpoint exec (sched : list move) (st : state) : state :=
  match sched with
  | [] => st
  | mv :: rest => exec rest (perform mv st)
  end.

(** The number of worker actions in an interleaving. *)
Fixpoint works (sched : list move) : nat :=
  match sched with
  | [] => O
  | Work :: rest => S (works rest)
  | Stop :: rest => works rest
  end.

(** The loop left to itself for [n] actions. *)
Fixpoint run_for (n : nat) (st : state) : state :=
  match n with
  | O => st
  | S n' => run_for n' (next st)
  end.

(** The stop flag of the thread object. *)
Definition stop_flag (st : state) : bool := SolverThread._stop (self (snd st)).

(** How many actions a stopped thread is away from the end of [run()]. *)
Definition dist (st : state) : nat :=
  match at_ (snd st) with
  | AtStep => 6
  | AtSleep => 5
  | AtUpdate => 4
  | AtDone => 3
  | AtWhile => 2
  | AtReturn => 1
  | Finished | Died _ => 0
  end.

(** Whether a call of [solver.step()] is still ahead of a stopped thread. *)
Definition pending (st : state) : Z :=
  match at_ (snd st) with
  | AtStep => 1
  | _ => 0
  end.

(** Whether the update of the current iteration, if one is due, returns. *)
Definition update_returns (st : state) : Prop :=
  (i (snd st) mod 5 =? 0)%Z = true ->
  raises (SolverThread.updateProgress m (fst st) (self (snd st))) = false.

(** The states between a [step()] that reported completion and the end
    of [run()], when the update returns. *)
Definition completing (st : state) : Prop :=
  done (snd st) = true
  /\ match at_ (snd st) with
     | AtSleep | AtUpdate => update_returns st
     | AtDone => True
     | AtWhile | AtReturn | Finished => progress (fst st) = 1%float
     | AtStep | Died _ => False
     end.

End Loop.
End Worker.

(** ** class SolverWidget: the lifecycle methods *)

Module SolverWidget.
Import FlameSolver.

(** The calls that leave the widget, in the order they are made. *)
Inductive call : Type :=
| ConfValidate         (* self.conf.validate() *)
| ConfSetup            (* self.conf.setup() *)
| NewFlameSolver       (* pyro.FlameSolver(self.conf) *)
| SolverInitialize     (* self.solver.initialize() *)
| NewSolverThread      (* SolverThread(solver=..., conf=...) *)
| ThreadStart          (* self.solverThread.start() *)
| ThreadStop           (* self.solverThread.stop() *)
| TimerStart           (* self.updateTimer.start() *)
| TimerStop.           (* self.updateTimer.stop() *)

Definition call_eqb (a b : call) : bool :=
  match a, b with
  | ConfValidate, ConfValidate | ConfSetup, ConfSetup
  | NewFlameSolver, NewFlameSolver | SolverInitialize, SolverInitialize
  | NewSolverThread, NewSolverThread | ThreadStart, ThreadStart
  | ThreadStop, ThreadStop | TimerStart, TimerStart | TimerStop, TimerStop => true
  | _, _ => false
  end.

Definition count (c : call) (l : list call) : nat :=
  List.length (filter (call_eqb c) l).

(** The attributes of the widget the three methods use.  [solver] is
    the one solver object, which the worker thread shares; [log] records
    the outgoing calls. *)
Record t {Core : Type} : Type := {
  conf : Config.t;
  solver : option (FlameSolver.t Core);
  solverThread : option Worker.t;
  updateTimer : bool;          (* whether the timer is active *)
  pauseButton : string;        (* the button's text *)
  log : list call
}.
Arguments t : clear implicits.

Section Lifecycle.
Context {Core : Type}.
Variable m : Libm.
Variable step : FlameSolver.t Core -> FlameSolver.t Core * bool.
(** The configuration and solver classes live in other modules of the
    package: [validate] says whether [conf.validate()] returns (rather
    than raises), [setup] is [conf.setup()], [new_solver] the
    constructor and [initialize] the solver's method. *)
Variable validate : Config.t -> bool.
Variable setup : Config.t -> Config.t.
Variable new_solver : Config.t -> FlameSolver.t Core.
Variable initialize : FlameSolver.t Core -> FlameSolver.t Core.

(** [self.solverThread is not None and self.solverThread.is_alive()] *)
Definition active (w : t Core) : bool :=
  match solverThread w with
  | Some th => Worker.is_alive th
  | None => false
  end.

(** The number of worker loops of this widget that are running. *)
Definition active_workers (w : t Core) : nat := if active w then 1 else 0.

(** [if self.solver is None: ...] of [run]. *)
Definition ensure_solver (w : t Core) : result (t Core) :=
  match solver w with
  | Some _ => Ok w
  | None =>
      if validate (conf w) then
        let c := setup (conf w) in
        Ok {| conf := c;
              solver := Some (initialize (new_solver c));
              solverThread := solverThread w;
              updateTimer := updateTimer w;
              pauseButton := pauseButton w;
              log := log w ++ [ConfValidate; ConfSetup; NewFlameSolver; SolverInitialize] |}
      else Raise ConfigValidationError
  end.

Definition run (w : t Core) : result (t Core) :=
  if active w then Ok w
  else
    w1 <- ensure_solver w ;;
    match solver w1 with
    | None => Ok w1   (* unreachable: [ensure_solver] returns with a solver *)
    | Some s =>
        let (s', th) := SolverThread.__init__ s (conf w1) in
        Ok {| conf := conf w1;
              solver := Some s';
              solverThread := Some (Worker.start th);
              updateTimer := true;
              pauseButton := pauseButton w1;
              log := log w1 ++ [NewSolverThread; ThreadStart; TimerStart] |}
    end.

Definition stop_thread (w : t Core) : t Core :=
  {| conf := conf w;
     solver := solver w;
     solverThread := option_map
       (fun th => Worker.with_self (SolverThread.stop (Worker.self th)) th)
       (solverThread w);
     updateTimer := false;
     pauseButton := pauseButton w;
     log := log w ++ [ThreadStop; TimerStop] |}.

Definition set_pause_text (txt : string) (w : t Core) : t Core :=
  {| conf := conf w; solver := solver w; solverThread := solverThread w;
     updateTimer := updateTimer w; pauseButton := txt; log := log w |}.

Definition start_timer (w : t Core) : t Core :=
  {| conf := conf w; solver := solver w; solverThread := solverThread w;
     updateTimer := true; pauseButton := pauseButton w;
     log := log w ++ [TimerStart] |}.

Definition pause (w : t Core) : result (t Core) :=
  match solverThread w with
  | None => Ok w
  | Some th =>
      if negb (Worker.is_alive th) then
        w1 <- run (set_pause_text "Pause" w) ;;
        Ok (start_timer w1)
      else
        Ok (stop_thread (set_pause_text "Continue" w))
  end.

Definition stop (w : t Core) : t Core :=
  match solverThread w with
  | None => w
  | Some _ => stop_thread w
  end.

(** One action of the worker thread, seen from the widget: it acts on
    the shared solver and on the thread the widget refers to. *)
Definition worker_move (w : t Core) : t Core :=
  match solver w, solverThread w with
  | Some s, Some th =>
      let (s', th') := Worker.next m step (s, th) in
      {| conf := conf w; solver := Some s'; solverThread := Some th';
         updateTimer := updateTimer w; pauseButton := pauseButton w;
         log := log w |}
  | _, _ => w
  end.

End Lifecycle.
End SolverWidget.

(** ** A scripted solver, to run the model on concrete inputs

    The solver's state is the list of the observations still to come: a
    step appends the next time to [timeVector], publishes the next error
    metric and reports the next completion flag.  With nothing left it
    reports completion. *)
Module Script.
Import FlameSolver.

Definition obs : Type := (float * float * bool)%type.

Definition step (s : FlameSolver.t (list obs)) : FlameSolver.t (list obs) * bool :=
  match core s with
  | [] => (s, true)
  | (time, err, d) :: rest =>
      ({| timeVector := timeVector s ++ [time];
          terminationCondition := err;
          progress := progress s;
          core := rest |}, d)
  end.

Definition solver (times : list float) (err : float) (p : float) (script : list obs)
  : FlameSolver.t (list obs) :=
  {| timeVector := times; terminationCondition := err; progress := p; core := script |}.

Definition conf (meas : option string) (t_end period tol : float) : Config.t :=
  {| Config.terminationCondition :=
       {| measurement := meas; tEnd := t_end; steadyPeriod := period; tolerance := tol |} |}.

End Script.

(** ** SolverWidget: construction, the status timer and the event loop *)

Module Gui.
Import FlameSolver.

Section Events.
Context {Core : Type}.
Variable m : Libm.
Variable step : FlameSolver.t Core -> FlameSolver.t Core * bool.
Variable validate : Config.t -> bool.
Variable setup : Config.t -> Config.t.
Variable new_solver : Config.t -> FlameSolver.t Core.
Variable initialize : FlameSolver.t Core -> FlameSolver.t Core.

(** [SolverWidget.__init__], the attributes under "internals" and the
    text of the Pause button. *)
Definition __init__ (c : Config.t) : SolverWidget.t Core :=
  {| SolverWidget.conf := c;
     SolverWidget.solver := None;
     SolverWidget.solverThread := None;
     SolverWidget.updateTimer := false;
     SolverWidget.pauseButton := "Pause";
     SolverWidget.log := [] |}.

(** [SolverWidget.updateStatus]: the widget it leaves and the argument
    it hands to [progressBar.setValue], if it gets that far.  The plots
    it redraws afterwards are not part of the model. *)
Definition updateStatus (w : SolverWidget.t Core)
  : result (SolverWidget.t Core * option float) :=
  match SolverWidget.solver w with
  | None => Ok (w, None)
  | Some s =>
      th <- Py.getattr (SolverWidget.solverThread w) ;;
      let w' :=
        if negb (Worker.is_alive th) then
          {| SolverWidget.conf := SolverWidget.conf w;
             SolverWidget.solver := SolverWidget.solver w;
             SolverWidget.solverThread := SolverWidget.solverThread w;
             SolverWidget.updateTimer := false;
             SolverWidget.pauseButton := SolverWidget.pauseButton w;
             SolverWidget.log := SolverWidget.log w ++ [SolverWidget.TimerStop] |}
        else w in
      Ok (w', Some (1000 * progress s)%float)
  end.

(** What can happen next: a button is pressed, the status timer fires,
    or the worker thread performs one action. *)
Inductive event : Type :=
| StartPressed
| PausePressed
| StopPressed
| TimerTimeout
| WorkerAction.

(** A slot that raises is reported by Qt and the event loop goes on. *)
Definition survive (w : SolverWidget.t Core) (r : result (SolverWidget.t Core))
  : SolverWidget.t Core :=
  match r with
  | Ok w' => w'
  | Raise _ => w
  end.

Definition handle (e : event) (w : SolverWidget.t Core) : SolverWidget.t Core :=
  match e with
  | StartPressed => survive w (SolverWidget.run validate setup new_solver initialize w)
  | PausePressed => survive w (SolverWidget.pause validate setup new_solver initialize w)
  | StopPressed => SolverWidget.stop w
  | TimerTimeout =>
      if SolverWidget.updateTimer w
      then survive w (r <- updateStatus w ;; Ok (fst r))
      else w
  | WorkerAction => SolverWidget.worker_move m step w
  end.

Fixpoint play (es : list event) (w : SolverWidget.t Core) : SolverWidget.t Core :=
  match es with
  | [] => w
  | e :: rest => play rest (handle e w)
  end.

Definition is_start (e : event) : bool :=
  match e with StartPressed => true | _ => false end.

(** The solver and its thread are created together, and the solver
    once. *)
Definition consistent (w : SolverWidget.t Core) : Prop :=
  match SolverWidget.solver w, SolverWidget.solverThread w with
  | None, None =>
      SolverWidget.count SolverWidget.NewFlameSolver (SolverWidget.log w) = 0%nat
  | Some _, Some _ =>
      SolverWidget.count SolverWidget.NewFlameSolver (SolverWidget.log w) = 1%nat
  | _, _ => False
  end.

End Events.
End Gui.

(** ** The option widgets

    [OptionWidget] and [EnumOptionWidget], the rows of [OptionsWidget]
    and the panels of [MultiOptionsWidget].  Option values are of a type
    [A] with the comparison [eqb] for [==] (and its negation for [!=])
    and [str] for [str()]; the size hints, which Qt computes, are
    parameters.  An option object carries what the widgets read of it:
    value, default, choices and the results of the [isinstance] tests. *)

Module OptionWidgets.

Inductive raised : Type :=
| UnboundLocalError
| KeyError
| TypeError
| NoneAttributeError.   (* AttributeError on [None] *)

Inductive outcome (T : Type) : Type :=
| Returns (x : T)
| Raises (e : raised).
Arguments Returns {T} x.
Arguments Raises {T} e.

Section Widgets.
Context {A : Type}.
Variable eqb : A -> A -> bool.
Variable str : A -> string.
Variable label_width : string -> Z.

Record Opt : Type := {
  value : A;
  default : A;
  choices : option (list A);
  is_string : bool;      (* isinstance(opt, input.StringOption) *)
  is_integer : bool;     (* isinstance(opt, input.IntegerOption) *)
  is_float : bool;       (* isinstance(opt, input.FloatOption) *)
  is_bool : bool         (* isinstance(opt, input.BoolOption) *)
}.

Definition set_value (v : A) (o : Opt) : Opt :=
  {| value := v; default := default o; choices := choices o;
     is_string := is_string o; is_integer := is_integer o;
     is_float := is_float o; is_bool := is_bool o |}.

(** class OptionWidget: the option, the text of the label and the name
    read from the label at construction. *)
Record OptionWidget : Type := {
  opt : Opt;
  label : string;
  optName : string
}.

Definition OptionWidget_init (name : string) (o : Opt) : OptionWidget :=
  {| opt := o; label := name; optName := name |}.

Definition checkDefault (w : OptionWidget) : OptionWidget :=
  {| opt := opt w;
     label := if negb (eqb (value (opt w)) (default (opt w)))
              then ("<i>" ++ optName w ++ "</i>")%string
              else optName w;
     optName := optName w |}.

(** [NumericOptionWidget.updateOpt] with [text] in the line edit;
    [float_ text = None] stands for [float(text)] raising [ValueError],
    which the method swallows. *)
Definition NumericOptionWidget_updateOpt (float_ : string -> option A)
           (text : string) (w : OptionWidget) : OptionWidget :=
  checkDefault
    match float_ text with
    | Some v => {| opt := set_value v (opt w); label := label w; optName := optName w |}
    | None => w
    end.

(** [IntegerOptionWidget.updateOpt]: the same with [int(text)]. *)
Definition IntegerOptionWidget_updateOpt (int_ : string -> option A)
           (text : string) (w : OptionWidget) : OptionWidget :=
  checkDefault
    match int_ text with
    | Some v => {| opt := set_value v (opt w); label := label w; optName := optName w |}
    | None => w
    end.

(** A dict with integer keys: the latest assignment to a key is found
    first. *)
Definition dict : Type := list (Z * A).

Definition dict_set (k : Z) (v : A) (d : dict) : dict := (k, v) :: d.

Fixpoint dict_get (k : Z) (d : dict) : option A :=
  match d with
  | [] => None
  | (k', v) :: rest => if (k' =? k)%Z then Some v else dict_get k rest
  end.

(** class EnumOptionWidget: the combo box (its entries and current
    index) and the dict [items]. *)
Record EnumOptionWidget : Type := {
  base : OptionWidget;
  combo : list string;
  currentIndex : Z;
  items : dict
}.

(** The locals of the loop of [EnumOptionWidget.__init__]. *)
Record enum_locals : Type := {
  startIndex : option Z;
  entries : list string;
  table : dict
}.

(** [for i, choice in enumerate(opt.choices)], from index [i] on. *)
Fixpoint enum_loop (v : A) (i : Z) (cs : list A) (st : enum_locals) : enum_locals :=
  match cs with
  | [] => st
  | choice :: rest =>
      enum_loop v (i + 1) rest
        {| startIndex := if eqb choice v then Some i else startIndex st;
           entries := entries st ++ [str choice];
           table := dict_set i choice (table st) |}
  end.

Definition EnumOptionWidget_init (name : string) (o : Opt) : outcome EnumOptionWidget :=
  match choices o with
  | None => Raises TypeError
  | Some cs =>
      let st := enum_loop (value o) 0 cs
                  {| startIndex := None; entries := []; table := [] |} in
      match startIndex st with
      | None => Raises UnboundLocalError
      | Some k =>
          Returns {| base := OptionWidget_init name o;
                     combo := entries st;
                     currentIndex := k;
                     items := table st |}
      end
  end.

(** The user, or the program, selects an entry of the combo box. *)
Definition select (k : Z) (w : EnumOptionWidget) : EnumOptionWidget :=
  {| base := base w; combo := combo w; currentIndex := k; items := items w |}.

Definition EnumOptionWidget_updateOpt (w : EnumOptionWidget) : outcome EnumOptionWidget :=
  match dict_get (currentIndex w) (items w) with
  | None => Raises KeyError
  | Some v =>
      Returns {| base := checkDefault
                           {| opt := set_value v (opt (base w));
                              label := label (base w);
                              optName := optName (base w) |};
                 combo := combo w;
                 currentIndex := currentIndex w;
                 items := items w |}
  end.

(** The widget in the second column of a row of [OptionsWidget]. *)
Inductive field : Type :=
| EnumField (w : EnumOptionWidget)
| StringField (w : OptionWidget)
| IntegerField (w : OptionWidget)
| NumericField (w : OptionWidget)
| BoolField (w : OptionWidget)
| PlainLabel (text : string).

Definition make_field (name : string) (o : Opt) : outcome field :=
  match choices o with
  | Some _ =>
      match EnumOptionWidget_init name o with
      | Returns w => Returns (EnumField w)
      | Raises e => Raises e
      end
  | None =>
      if is_string o then Returns (StringField (OptionWidget_init name o))
      else if is_integer o then Returns (IntegerField (OptionWidget_init name o))
      else if is_float o then Returns (NumericField (OptionWidget_init name o))
      else if is_bool o then Returns (BoolField (OptionWidget_init name o))
      else Returns (PlainLabel (str (value o)))
  end.

(** class OptionsWidget: the grid, row by row (the label in column 0,
    the field in column 1), the minimum width of column 0 and the row of
    the spacer. *)
Record OptionsWidget : Type := {
  rows : list (Z * string * field);
  columnMinimumWidth : Z;
  spacerRow : Z
}.

Record options_locals : Type := {
  i_ : option Z;
  width : Z;
  grid : list (Z * string * field)
}.

(** [for i, (name, opt) in enumerate(self.opts)], from index [i] on. *)
Fixpoint options_loop (i : Z) (opts : list (string * Opt)) (st : options_locals)
  : outcome options_locals :=
  match opts with
  | [] => Returns st
  | (name, o) :: rest =>
      match make_field name o with
      | Raises e => Raises e
      | Returns f =>
          options_loop (i + 1) rest
            {| i_ := Some i;
               width := Z.max (label_width name) (width st);
               grid := grid st ++ [(i, name, f)] |}
      end
  end.

Definition OptionsWidget_init (opts : list (string * Opt)) : outcome OptionsWidget :=
  match options_loop 0 opts {| i_ := None; width := 0; grid := [] |} with
  | Raises e => Raises e
  | Returns st =>
      match i_ st with
      | None => Raises UnboundLocalError
      | Some i =>
          Returns {| rows := grid st;
                     columnMinimumWidth := width st + 5;
                     spacerRow := i + 1 |}
      end
  end.

(** class MultiOptionsWidget: the panels, one per list item, each with
    its visibility, and the index of the active one. *)
Record MultiOptionsWidget : Type := {
  panels : list (OptionsWidget * bool);
  activeOptionWidget : option nat;
  minimumHeight : Z
}.

Fixpoint set_visible (k : nat) (b : bool) (ps : list (OptionsWidget * bool))
  : list (OptionsWidget * bool) :=
  match ps, k with
  | [], _ => []
  | (p, _) :: rest, O => (p, b) :: rest
  | q :: rest, S k' => q :: set_visible k' b rest
  end.

(** [setActiveWidget(listitem)]; [listitem] is the index of the item in
    the list, or [None].  The old panel is hidden before [listitem] is
    looked at, so the widget is returned also when the call raises. *)
Definition setActiveWidget (listitem : option nat) (w : MultiOptionsWidget)
  : MultiOptionsWidget * option raised :=
  let hidden :=
    match activeOptionWidget w with
    | Some a => set_visible a false (panels w)
    | None => panels w
    end in
  match listitem with
  | None =>
      ({| panels := hidden; activeOptionWidget := activeOptionWidget w;
          minimumHeight := minimumHeight w |}, Some NoneAttributeError)
  | Some k =>
      ({| panels := set_visible k true hidden; activeOptionWidget := Some k;
          minimumHeight := minimumHeight w |}, None)
  end.

Variable panel_height : OptionsWidget -> Z.

(** [for item in self.conf]: the panels, all hidden, and the height. *)
Fixpoint multi_loop (conf : list (list (string * Opt)))
         (st : list (OptionsWidget * bool) * Z)
  : outcome (list (OptionsWidget * bool) * Z) :=
  match conf with
  | [] => Returns st
  | item :: rest =>
      match OptionsWidget_init item with
      | Raises e => Raises e
      | Returns p =>
          multi_loop rest (fst st ++ [(p, false)], Z.max (snd st) (panel_height p))
      end
  end.

Definition MultiOptionsWidget_init (conf : list (list (string * Opt)))
  : outcome MultiOptionsWidget :=
  match multi_loop conf ([], 0%Z) with
  | Raises e => Raises e
  | Returns (ps, height) =>
      let currentItem := match ps with [] => None | _ :: _ => Some O end in
      match setActiveWidget currentItem
              {| panels := ps; activeOptionWidget := None; minimumHeight := 0 |} with
      | (_, Some e) => Raises e
      | (w, None) =>
          Returns {| panels := panels w;
                     activeOptionWidget := activeOptionWidget w;
                     minimumHeight := height |}
      end
  end.

(** The panels that are shown. *)
Definition visible (w : MultiOptionsWidget) : list bool := map snd (panels w).

End Widgets.
End OptionWidgets.

(** ** Invariants of the worker *)

(** The second stage is only entered together with the assignment of
    [refCond]. *)
Definition refCond_set (th : SolverThread.t) : Prop :=
  SolverThread.stage th = 0%Z \/ SolverThread.refCond th <> None.

(** The states of a run on which nobody calls [stop()]. *)
Definition unstopped {Core : Type} (st : Worker.state (Core := Core)) : Prop :=
  match Worker.at_ (snd st) with
  | Worker.AtWhile =>
      SolverThread._stop (Worker.self (snd st)) = false
      /\ (Worker.done (snd st) = true -> FlameSolver.progress (fst st) = 1%float)
  | Worker.AtStep | Worker.AtSleep | Worker.AtUpdate | Worker.AtDone =>
      SolverThread._stop (Worker.self (snd st)) = false
  | Worker.AtReturn =>
      SolverThread._stop (Worker.self (snd st)) = false
      /\ Worker.done (snd st) = true /\ FlameSolver.progress (fst st) = 1%float
  | Worker.Finished =>
      SolverThread._stop (Worker.self (snd st)) = true
      /\ Worker.done (snd st) = true /\ FlameSolver.progress (fst st) = 1%float
  | Worker.Died _ => True
  end.

(** What every run keeps between the forced assignment and the return. *)
Definition leaving {Core : Type} (st : Worker.state (Core := Core)) : Prop :=
  match Worker.at_ (snd st) with
  | Worker.AtWhile | Worker.AtReturn | Worker.Finished =>
      Worker.done (snd st) = true -> FlameSolver.progress (fst st) = 1%float
  | _ => True
  end.

(** ** The order of binary64 values *)

(** [x <= y] on specification floats, false as soon as one side is NaN. *)
Definition SFle (x y : spec_float) : Prop :=
  SFcompare x y = Some Lt \/ SFcompare x y = Some Eq.

(** ** Concrete runs *)

Import FlameSolver.
Local Open Scope float_scope.

(** The thread object the constructor returns for configuration [c]. *)
Definition fresh_thread (c : Config.t) : SolverThread.t :=
  snd (SolverThread.__init__ (Script.solver [] 0 0 []) c).

(** Two configurations: a run to [tEnd = 10.0], and a run with a
    measurement, [steadyPeriod = 1.0] and [tolerance = 1e-3]. *)
Definition fixed_conf : Config.t := Script.conf None 10 1 0.001.
Definition steady_conf : Config.t := Script.conf (Some "Q"%string) 10 1 0.001.

(** A thread in the second stage with reference error [r]. *)
Definition converging_thread (r : float) : SolverThread.t :=
  SolverThread.enter_stage1 r (fresh_thread steady_conf).

(** The twenty steps of a run to [tEnd = 10]: the time series reads 0, 2,
    5 and 10 at the fifth, tenth, fifteenth and twentieth step, and the
    last step reports completion. *)
Definition fixed_end_script : list Script.obs :=
  map (fun tm : float => (tm, 1e10%float, false))
      [0; 0; 0; 0; 0; 0.5; 1; 1.5; 1.75; 2; 3; 3.5; 4; 4.5; 5; 6; 7; 8; 9]%float
  ++ [(10%float, 1e10%float, true)].

Definition fixed_end_start : Worker.state (Core := list Script.obs) :=
  let (s, th) := SolverThread.__init__
                   (Script.solver [] 1e10 0 fixed_end_script)
                   fixed_conf in
  (s, Worker.start th).

(** The ten steps of a run with a measurement whose error metric is 0.0
    from the fifth step on; the tenth step reports completion. *)
Definition zero_error_script : list Script.obs :=
  [(0.1, 1e10, false); (0.2, 1e10, false); (0.3, 1e10, false); (0.4, 1e10, false);
   (0.5, 0, false); (0.6, 0, false); (0.7, 0, false); (0.8, 0, false);
   (0.9, 0, false); (1, 0, true)].

Definition zero_error_start : Worker.state (Core := list Script.obs) :=
  let (s, th) := SolverThread.__init__
                   (Script.solver [0] 1e10 0 zero_error_script) steady_conf in
  (s, Worker.start th).

(** A widget on which Start has never been pressed. *)
Definition new_widget (c : Config.t) : SolverWidget.t (list Script.obs) :=
  {| SolverWidget.conf := c; SolverWidget.solver := None;
     SolverWidget.solverThread := None; SolverWidget.updateTimer := false;
     SolverWidget.pauseButton := "Pause"; SolverWidget.log := [] |}.

Definition scripted_run (script : list Script.obs) :=
  SolverWidget.run (fun _ => true) (fun c => c)
    (fun _ => Script.solver [] 1e10 0 script) (fun s => Script.solver [0] 1e10 0 script).

(** A widget whose run was paused in the second stage: the worker has
    returned, the solver holds the published value 0.6, the thread object
    holds stage 1 and the reference error 0.5. *)
Definition paused_widget : SolverWidget.t (list Script.obs) :=
  {| SolverWidget.conf := steady_conf;
     SolverWidget.solver := Some (Script.solver [0; 1; 2] 0.01 0.6 []);
     SolverWidget.solverThread :=
       Some {| Worker.self := SolverThread.stop (converging_thread 0.5);
               Worker.at_ := Worker.Finished; Worker.done := false; Worker.i := 7 |};
     SolverWidget.updateTimer := false;
     SolverWidget.pauseButton := "Continue";
     SolverWidget.log := [] |}.

(** A widget just after a successful Start of the run to [tEnd = 10]. *)
Definition started_widget : SolverWidget.t (list Script.obs) :=
  {| SolverWidget.conf := fixed_conf;
     SolverWidget.solver := Some (Script.solver [0] 1e10 0 fixed_end_script);
     SolverWidget.solverThread := Some (Worker.start (fresh_thread fixed_conf));
     SolverWidget.updateTimer := true;
     SolverWidget.pauseButton := "Pause";
     SolverWidget.log := [] |}.

(** Options for the option widgets: a string option with choices whose
    value is listed twice, and one without choices; label widths and
    panel heights as a toolkit would report them. *)
Definition enum_opt : OptionWidgets.Opt (A := string) :=
  {| OptionWidgets.value := "b"%string;
     OptionWidgets.default := "a"%string;
     OptionWidgets.choices := Some ["a"%string; "b"%string; "b"%string];
     OptionWidgets.is_string := true;
     OptionWidgets.is_integer := false;
     OptionWidgets.is_float := false;
     OptionWidgets.is_bool := false |}.

Definition text_opt : OptionWidgets.Opt (A := string) :=
  {| OptionWidgets.value := "out"%string;
     OptionWidgets.default := "out"%string;
     OptionWidgets.choices := None;
     OptionWidgets.is_string := true;
     OptionWidgets.is_integer := false;
     OptionWidgets.is_float := false;
     OptionWidgets.is_bool := false |}.

Definition sample_opts : list (string * OptionWidgets.Opt (A := string)) :=
  [("kernel"%string, enum_opt); ("outputDir"%string, text_opt)].

Definition sample_conf : list (list (string * OptionWidgets.Opt (A := string))) :=
  [sample_opts; [("outputDir"%string, text_opt)]; sample_opts].

Definition text_width (s : string) : Z := 7 * Z.of_nat (String.length s).

Definition rows_height (p : OptionWidgets.OptionsWidget (A := string)) : Z :=
  20 * Z.of_nat (List.length (OptionWidgets.rows p)).

(** A stand-in for [float]: the empty text and text with a space are
    not numbers. *)
Definition sample_float (s : string) : option string :=
  if (String.eqb s "" || String.eqb s "1 e")%bool then None else Some s.

(** * Proofs *)

(** ** Binary64 facts used by the proofs *)

Module PyFloat.
Local Open Scope float_scope.

Lemma SFcompare_refl (x : spec_float) :
  x <> S754_nan -> SFcompare x x = Some Eq.
Proof.
  destruct x as [s|s| |s m e]; simpl; try congruence; intros _.
  - destruct s; reflexivity.
  - rewrite Z.compare_refl.
    change (Pos.compare_cont Eq m m) with (Pos.compare m m).
    rewrite Pos.compare_refl. destruct s; reflexivity.
Qed.

Lemma SFcompare_antisym (x y : spec_float) (c : comparison) :
  SFcompare x y = Some c -> SFcompare y x = Some (CompOpp c).
Proof.
  destruct x as [sx|sx| |sx mx ex], y as [sy|sy| |sy my ey]; simpl;
    try discriminate; intros H; injection H as <-;
    try (destruct sx; reflexivity); try (destruct sy; reflexivity);
    try (destruct sx, sy; reflexivity).
  change (Pos.compare_cont Eq mx my) with (Pos.compare mx my).
  change (Pos.compare_cont Eq my mx) with (Pos.compare my mx).
  rewrite (Z.compare_antisym ex ey), (Pos.compare_antisym mx my).
  destruct sx, sy; try reflexivity;
    destruct (ex ?= ey)%Z; simpl; try reflexivity;
    destruct (mx ?= my)%positive; reflexivity.
Qed.

Lemma SFcompare_total (x y : spec_float) :
  x <> S754_nan -> y <> S754_nan -> exists c, SFcompare x y = Some c.
Proof.
  destruct x, y; simpl; try congruence; eauto.
Qed.

Lemma SFle_trans (x y z : spec_float) : SFle x y -> SFle y z -> SFle x z.
Proof.
  unfold SFle.
  destruct x as [sx|sx| |sx mx ex], y as [sy|sy| |sy my ey],
           z as [sz|sz| |sz mz ez]; simpl;
    try (intros [H|H]; discriminate H);
    try (intros _ [H|H]; discriminate H);
    try (destruct sx; destruct sy; destruct sz; simpl; intuition congruence);
    try (destruct sx; destruct sy; simpl; intuition congruence);
    try (destruct sx; destruct sz; simpl; intuition congruence);
    try (destruct sy; destruct sz; simpl; intuition congruence).
  change (Pos.compare_cont Eq mx my) with (Pos.compare mx my).
  change (Pos.compare_cont Eq my mz) with (Pos.compare my mz).
  change (Pos.compare_cont Eq mx mz) with (Pos.compare mx mz).
  destruct sx, sy, sz; simpl; try (intuition congruence);
    destruct (Z.compare_spec ex ey), (Z.compare_spec ey ez), (Z.compare_spec ex ez);
    try lia; simpl; try (intuition congruence); subst;
    destruct (Pos.compare_spec mx my), (Pos.compare_spec my mz), (Pos.compare_spec mx mz);
    try lia; simpl; intuition congruence.
Qed.

Lemma is_nan_spec (x : float) : is_nan x = true <-> Prim2SF x = S754_nan.
Proof.
  unfold is_nan. rewrite FloatAxioms.eqb_spec. unfold SFeqb.
  destruct (Prim2SF x) as [s|s| |s m e] eqn:E;
    try (rewrite SFcompare_refl by discriminate; simpl; split; discriminate).
  simpl. split; reflexivity.
Qed.

Lemma not_nan_spec (x : float) : is_nan x = false <-> Prim2SF x <> S754_nan.
Proof.
  rewrite <- is_nan_spec. destruct (is_nan x); split; congruence.
Qed.

Lemma is_zero_spec (x : float) :
  is_zero x = true <-> exists s, Prim2SF x = S754_zero s.
Proof.
  unfold is_zero. rewrite FloatAxioms.eqb_spec.
  change (Prim2SF zero) with (S754_zero false). unfold SFeqb.
  destruct (Prim2SF x) as [s|s| |s m e]; simpl.
  - split; eauto.
  - destruct s; split; try discriminate; intros [? ?]; discriminate.
  - split; try discriminate; intros [? ?]; discriminate.
  - destruct s; split; try discriminate; intros [? ?]; discriminate.
Qed.

Lemma not_zero_spec (x : float) :
  is_zero x = false -> forall s, Prim2SF x <> S754_zero s.
Proof.
  intros H s E.
  assert (is_zero x = true) by (apply is_zero_spec; eauto). congruence.
Qed.

Lemma leb_iff (x y : float) : (x <=? y) = true <-> SFle (Prim2SF x) (Prim2SF y).
Proof.
  rewrite leb_spec. unfold SFleb, SFle.
  destruct (SFcompare (Prim2SF x) (Prim2SF y)) as [[| |]|]; intuition congruence.
Qed.

Lemma ltb_iff (x y : float) :
  (x <? y) = true <-> SFcompare (Prim2SF x) (Prim2SF y) = Some Lt.
Proof.
  rewrite ltb_spec. unfold SFltb.
  destruct (SFcompare (Prim2SF x) (Prim2SF y)) as [[| |]|]; intuition congruence.
Qed.

Lemma leb_refl (x : float) : is_nan x = false -> (x <=? x) = true.
Proof.
  intros H. apply leb_iff. right. apply SFcompare_refl. now apply not_nan_spec.
Qed.

Lemma leb_trans (x y z : float) :
  (x <=? y) = true -> (y <=? z) = true -> (x <=? z) = true.
Proof. rewrite !leb_iff. apply SFle_trans. Qed.

Lemma leb_not_ltb (x y : float) : (x <=? y) = true -> (y <? x) = false.
Proof.
  rewrite leb_iff. intros H.
  destruct (y <? x) eqn:E; [|reflexivity].
  apply ltb_iff in E. apply SFcompare_antisym in E. simpl in E.
  destruct H as [H|H]; congruence.
Qed.

Lemma not_ltb_leb (x y : float) :
  is_nan x = false -> is_nan y = false -> (y <? x) = false -> (x <=? y) = true.
Proof.
  intros Hx Hy H. apply leb_iff.
  apply not_nan_spec in Hx. apply not_nan_spec in Hy.
  destruct (SFcompare_total _ _ Hy Hx) as [c Hc].
  pose proof (SFcompare_antisym _ _ _ Hc) as Hc'.
  destruct c; simpl in Hc'; unfold SFle; auto.
  apply ltb_iff in Hc. congruence.
Qed.

Lemma ltb_leb (x y : float) : (x <? y) = true -> (x <=? y) = true.
Proof. rewrite ltb_iff, leb_iff. unfold SFle. auto. Qed.

Lemma leb_not_nan (x y : float) :
  (x <=? y) = true -> is_nan x = false /\ is_nan y = false.
Proof.
  rewrite leb_iff, !not_nan_spec. unfold SFle.
  destruct (Prim2SF x), (Prim2SF y); simpl; intuition congruence.
Qed.

Lemma ltb_not_nan (x y : float) :
  (x <? y) = true -> is_nan x = false /\ is_nan y = false.
Proof. intros H. apply leb_not_nan. now apply ltb_leb. Qed.

(** [x - x] is [+0] for every finite [x]. *)
Lemma sub_diag (x : float) : is_finite x = true -> x - x = zero.
Proof.
  unfold is_finite, is_infinity. rewrite negb_true_iff, orb_false_iff.
  intros [Hn Hi]. apply not_nan_spec in Hn.
  rewrite FloatAxioms.eqb_spec, abs_spec in Hi.
  apply Prim2SF_inj. rewrite sub_spec.
  change (Prim2SF zero) with (S754_zero false).
  change (Prim2SF infinity) with (S754_infinity false) in Hi.
  destruct (Prim2SF x) as [s|s| |s m e];
    [destruct s; reflexivity | destruct s; discriminate Hi | congruence | ].
  unfold SF64sub, SFsub. rewrite Z.min_id. unfold shl_align.
  rewrite Z.sub_diag. reflexivity.
Qed.

(** [0 / r] is a zero as soon as [r] is a number other than zero. *)
Lemma zero_div (r : float) :
  is_nan r = false -> is_zero r = false -> is_zero (zero / r) = true.
Proof.
  intros Hn Hz. apply not_nan_spec in Hn.
  pose proof (not_zero_spec _ Hz) as Hz'.
  apply is_zero_spec. rewrite div_spec.
  change (Prim2SF zero) with (S754_zero false).
  destruct (Prim2SF r) as [s|s| |s m e]; simpl; eauto.
  - exfalso. eapply Hz'; reflexivity.
  - congruence.
Qed.

(** Adding a zero to a non-zero value returns that value. *)
Lemma add_zero_r (x d : float) :
  is_zero x = false -> is_zero d = true -> x + d = x.
Proof.
  intros Hx Hd. apply is_zero_spec in Hd. destruct Hd as [sd Hd].
  pose proof (not_zero_spec _ Hx) as Hx'.
  apply Prim2SF_inj. rewrite add_spec, Hd.
  destruct (Prim2SF x) as [s|s| |s m e]; simpl; try reflexivity.
  exfalso. eapply Hx'; reflexivity.
Qed.

(** [x / x] is exactly [1] for every finite non-zero [x]. *)
Lemma div_diag (x : float) :
  is_finite x = true -> is_zero x = false -> x / x = one.
Proof.
  unfold is_finite, is_infinity. rewrite negb_true_iff, orb_false_iff.
  intros [Hn Hi] Hz. apply not_nan_spec in Hn.
  pose proof (not_zero_spec _ Hz) as Hz'.
  rewrite FloatAxioms.eqb_spec, abs_spec in Hi.
  change (Prim2SF infinity) with (S754_infinity false) in Hi.
  apply Prim2SF_inj. rewrite div_spec.
  destruct (Prim2SF x) as [s|s| |s m e];
    [exfalso; eapply Hz'; reflexivity | destruct s; discriminate Hi | congruence | ].
  unfold SF64div, SFdiv, SFdiv_core_binary.
  replace (Zdigits2 (Z.pos m) + e - (Zdigits2 (Z.pos m) + e))%Z with 0%Z by lia.
  rewrite Z.sub_diag.
  change (Z.min (fexp prec emax 0) 0) with (-53)%Z.
  change (0 - -53)%Z with 53%Z. cbv iota.
  assert (Hq : Z.div_eucl (Z.shiftl (Z.pos m) 53) (Z.pos m) = (2 ^ 53, 0)%Z).
  { rewrite Z.shiftl_mul_pow2 by lia. rewrite Z.mul_comm.
    pose proof (Z.div_mul (2 ^ 53) (Z.pos m) ltac:(lia)) as Hd.
    pose proof (Z.mod_mul (2 ^ 53) (Z.pos m) ltac:(lia)) as Hm.
    unfold Z.div in Hd. unfold Z.modulo in Hm.
    destruct (Z.div_eucl (2 ^ 53 * Z.pos m) (Z.pos m)) as [q r].
    congruence. }
  change IntDef.Z.div_eucl with Z.div_eucl.
  change IntDef.Z.shiftl with Z.shiftl.
  rewrite Hq.
  assert (Hl : new_location (Z.pos m) 0 = loc_Exact).
  { unfold new_location, new_location_even, new_location_odd.
    destruct (Z.even (Z.pos m)); reflexivity. }
  rewrite Hl. rewrite xorb_nilpotent. reflexivity.
Qed.

End PyFloat.

(** The reference instance has the special values of C99. *)
Lemma RefLibm_C99 : C99 RefLibm.libm.
Proof.
  split; simpl.
  - reflexivity.
  - intros x H. unfold RefLibm.ref_log10. rewrite H. destruct (is_nan x); reflexivity.
  - reflexivity.
  - reflexivity.
Qed.

(** ** The run-time operations *)

Lemma index_last_snoc (ts : list float) (x : float) :
  Py.index_last (ts ++ [x]) = Ok x.
Proof. unfold Py.index_last. rewrite rev_app_distr. reflexivity. Qed.

Lemma truediv_ok (a b : float) :
  is_zero b = false -> Py.truediv a b = Ok (a / b)%float.
Proof. unfold Py.truediv. intros ->. reflexivity. Qed.

Lemma truediv_zero (a b : float) :
  is_zero b = true -> Py.truediv a b = Raise ZeroDivisionError.
Proof. unfold Py.truediv. intros ->. reflexivity. Qed.

Lemma nan_div (x : float) : (nan / x)%float = nan.
Proof. apply Prim2SF_inj. rewrite div_spec. reflexivity. Qed.

Lemma mul_nan (x : float) : (x * nan)%float = nan.
Proof.
  apply Prim2SF_inj. rewrite mul_spec.
  change (Prim2SF nan) with S754_nan. destruct (Prim2SF x); reflexivity.
Qed.

Lemma add_nan (x : float) : (x + nan)%float = nan.
Proof.
  apply Prim2SF_inj. rewrite add_spec.
  change (Prim2SF nan) with S754_nan. destruct (Prim2SF x); reflexivity.
Qed.

Lemma is_nan_eq (x : float) : is_nan x = true -> x = nan.
Proof.
  intros H. apply PyFloat.is_nan_spec in H. apply Prim2SF_inj. rewrite H. reflexivity.
Qed.

(** ** The progress heuristic *)

(** C6: with no steady-state measurement configured, [updateProgress]
    publishes [currentTime / tEnd], the last entry of the time vector
    divided by [tEnd], and leaves the thread's stage alone.  For
    [tEnd = 10.0] and the times 0, 2, 5, 10 the published values are 0.0,
    0.2, 0.5 and 1.0, and the run that reports completion at time 10
    ends with exactly 1.0. *)
Theorem updateProgress_fixed_end_time :
  (forall (Core : Type) (m : Libm) (solver : FlameSolver.t Core)
          (self : SolverThread.t) (ts : list float) (now : float),
      measurement (Config.terminationCondition (SolverThread.conf self)) = None ->
      timeVector solver = ts ++ [now] ->
      is_zero (tEnd (Config.terminationCondition (SolverThread.conf self))) = false ->
      SolverThread.updateProgress m solver self
      = Ok (set_progress
              (now / tEnd (Config.terminationCondition (SolverThread.conf self)))%float
              solver,
            self))
  /\ (forall (m : Libm) (th : SolverThread.t),
         SolverThread.conf th = Script.conf None 10 1 0.001 ->
         map (fun ts =>
                match SolverThread.updateProgress m (Script.solver ts 1e10 0 []) th with
                | Ok (s, _) => Some (progress s)
                | Raise _ => None
                end)
             [[0]; [0; 2]; [0; 2; 5]; [0; 2; 5; 10]]%float
         = [Some 0; Some 0.2; Some 0.5; Some 1]%float)
  /\ (forall m : Libm,
         map (fun n => progress (fst (Worker.run_for m Script.step n fixed_end_start)))
             [25; 50; 75; 100]%nat
         = [0; 0.2; 0.5; 1]%float
         /\ Worker.at_ (snd (Worker.run_for m Script.step 102 fixed_end_start))
            = Worker.Finished
         /\ progress (fst (Worker.run_for m Script.step 102 fixed_end_start)) = 1%float).
Proof.
  split; [|split].
  - intros Core m solver self ts now Hm Hts Hz.
    unfold SolverThread.updateProgress. rewrite Hm, Hts, index_last_snoc.
    simpl. rewrite (truediv_ok _ _ Hz). reflexivity.
  - intros m th Hc. unfold SolverThread.updateProgress. rewrite Hc. reflexivity.
  - intros m. vm_compute. auto.
Qed.

Lemma updateProgress_fixed_end_time_witness :
  SolverThread.updateProgress RefLibm.libm
    (Script.solver [0; 2; 5] 1e10 0.2 [])%float
    (snd (SolverThread.__init__ (Script.solver [] 0 0 []) (Script.conf None 10 1 0.001)))%float
  = Ok (Script.solver [0; 2; 5] 1e10 0.5 [],
        snd (SolverThread.__init__ (Script.solver [] 0 0 []) (Script.conf None 10 1 0.001)))%float.
Proof.
  apply (proj1 updateProgress_fixed_end_time (list Script.obs) RefLibm.libm
           (Script.solver [0; 2; 5] 1e10 0.2 [])%float
           (snd (SolverThread.__init__ (Script.solver [] 0 0 [])
                   (Script.conf None 10 1 0.001)))%float
           [0; 2]%float 5%float); reflexivity.
Defined.

Lemma updates_app {Core : Type} (m : Libm) (a b : list (float * float))
      (st : FlameSolver.t Core * SolverThread.t) :
  SolverThread.updates m (a ++ b) st
  = (st' <- SolverThread.updates m a st ;; SolverThread.updates m b st').
Proof.
  revert st. induction a as [|o a IH]; intros st; simpl; [reflexivity|].
  destruct (SolverThread.updateProgress m (observe o (fst st)) (snd st)) as [st'|e];
    simpl; [apply IH | reflexivity].
Qed.

(** The first-stage branch, as an equation. *)
Lemma updateProgress_stage0 {Core : Type} (m : Libm) (solver : FlameSolver.t Core)
      (self : SolverThread.t) (mu : string) (ts : list float) (now : float) :
  measurement (Config.terminationCondition (SolverThread.conf self)) = Some mu ->
  SolverThread.stage self = 0%Z ->
  timeVector solver = ts ++ [now] ->
  is_zero (steadyPeriod (Config.terminationCondition (SolverThread.conf self))) = false ->
  SolverThread.updateProgress m solver self
  = Ok (set_progress
          (SolverThread.frac0 self * now
           / steadyPeriod (Config.terminationCondition (SolverThread.conf self)))%float
          solver,
        if (terminationCondition solver <? 1e9)%float
        then SolverThread.enter_stage1 (terminationCondition solver) self
        else self).
Proof.
  intros Hm Hs Hts Hz. unfold SolverThread.updateProgress.
  rewrite Hm, Hs, Hts, index_last_snoc. simpl.
  rewrite (truediv_ok _ _ Hz). reflexivity.
Qed.

(** While the error metric is not below [1e9] the thread object is left
    as it is. *)
Lemma updates_stay_seeking {Core : Type} (m : Libm) (mu : string)
      (obs : list (float * float)) (solver : FlameSolver.t Core)
      (self : SolverThread.t) :
  measurement (Config.terminationCondition (SolverThread.conf self)) = Some mu ->
  SolverThread.stage self = 0%Z ->
  is_zero (steadyPeriod (Config.terminationCondition (SolverThread.conf self))) = false ->
  Forall (fun o : float * float => (snd o <? 1e9)%float = false) obs ->
  exists solver', SolverThread.updates m obs (solver, self) = Ok (solver', self).
Proof.
  intros Hm Hs Hz Hall. revert solver.
  induction Hall as [|o obs Ho Hall IH]; intros solver; simpl.
  - eauto.
  - rewrite (updateProgress_stage0 m (observe o solver) self mu (timeVector solver) (fst o))
      by (assumption || reflexivity).
    simpl. rewrite Ho. apply IH.
Qed.

(** C5: in the first stage (stage 0, a measurement configured)
    [updateProgress] publishes [frac0 * currentTime / steadyPeriod] with
    [frac0 = 0.15]; the stage becomes 1, with the current error kept as
    [refCond], on the first invocation whose error metric is below [1e9]
    and on no earlier one; with [steadyPeriod = 1.0], [currentTime = 0.5]
    and an error of at least [1e9] the published value is 0.075 and the
    stage is still 0. *)
Theorem updateProgress_seeking :
  (forall (Core : Type) (s : FlameSolver.t Core) (c : Config.t),
      SolverThread.frac0 (snd (SolverThread.__init__ s c)) = 0.15%float
      /\ SolverThread.stage (snd (SolverThread.__init__ s c)) = 0%Z)
  /\ (forall (Core : Type) (m : Libm) (solver : FlameSolver.t Core)
             (self : SolverThread.t) (mu : string) (ts : list float) (now : float),
         measurement (Config.terminationCondition (SolverThread.conf self)) = Some mu ->
         SolverThread.stage self = 0%Z ->
         timeVector solver = ts ++ [now] ->
         is_zero (steadyPeriod (Config.terminationCondition (SolverThread.conf self)))
         = false ->
         exists self',
           SolverThread.updateProgress m solver self
           = Ok (set_progress
                   (SolverThread.frac0 self * now
                    / steadyPeriod (Config.terminationCondition (SolverThread.conf self)))%float
                   solver,
                 self')
           /\ ((terminationCondition solver <? 1e9)%float = true ->
               SolverThread.stage self' = 1%Z
               /\ SolverThread.refCond self' = Some (terminationCondition solver))
           /\ ((terminationCondition solver <? 1e9)%float = false -> self' = self))
  /\ (forall (Core : Type) (m : Libm) (solver : FlameSolver.t Core)
             (self : SolverThread.t) (mu : string)
             (before : list (float * float)) (now err : float),
         measurement (Config.terminationCondition (SolverThread.conf self)) = Some mu ->
         SolverThread.stage self = 0%Z ->
         is_zero (steadyPeriod (Config.terminationCondition (SolverThread.conf self)))
         = false ->
         Forall (fun o : float * float => (snd o <? 1e9)%float = false) before ->
         (err <? 1e9)%float = true ->
         (exists solver1,
             SolverThread.updates m before (solver, self) = Ok (solver1, self))
         /\ (exists solver2 self2,
                SolverThread.updates m (before ++ [(now, err)]) (solver, self)
                = Ok (solver2, self2)
                /\ SolverThread.stage self2 = 1%Z
                /\ SolverThread.refCond self2 = Some err))
  /\ (forall (Core : Type) (m : Libm) (solver : FlameSolver.t Core)
             (self : SolverThread.t) (mu : string) (ts : list float),
         measurement (Config.terminationCondition (SolverThread.conf self)) = Some mu ->
         SolverThread.stage self = 0%Z ->
         SolverThread.frac0 self = 0.15%float ->
         steadyPeriod (Config.terminationCondition (SolverThread.conf self)) = 1.0%float ->
         timeVector solver = ts ++ [0.5%float] ->
         (1e9 <=? terminationCondition solver)%float = true ->
         SolverThread.updateProgress m solver self
         = Ok (set_progress 0.075%float solver, self)).
Proof.
  split; [|split; [|split]].
  - intros Core s c. split; reflexivity.
  - intros Core m solver self mu ts now Hm Hs Hts Hz.
    eexists. split; [apply (updateProgress_stage0 m solver self mu ts now); assumption|].
    split; intros ->; [split; reflexivity | reflexivity].
  - intros Core m solver self mu before now err Hm Hs Hz Hall Herr.
    destruct (updates_stay_seeking m mu before solver self Hm Hs Hz Hall) as [s1 H1].
    split; [eauto|].
    rewrite updates_app, H1. simpl.
    rewrite (updateProgress_stage0 m (observe (now, err) s1) self mu (timeVector s1) now)
      by (assumption || reflexivity).
    simpl. rewrite Herr. do 2 eexists. split; [reflexivity|]. split; reflexivity.
  - intros Core m solver self mu ts Hm Hs Hf Hp Hts Herr.
    rewrite (updateProgress_stage0 m solver self mu ts 0.5%float Hm Hs Hts)
      by (rewrite Hp; reflexivity).
    rewrite (PyFloat.leb_not_ltb _ _ Herr), Hf, Hp. reflexivity.
Qed.

Lemma updateProgress_seeking_witness :
  SolverThread.updateProgress RefLibm.libm
    (Script.solver [0; 0.5] 1e10 0 [])%float
    (snd (SolverThread.__init__ (Script.solver [] 0 0 [])
            (Script.conf (Some "Q"%string) 10 1 0.001)))%float
  = Ok (Script.solver [0; 0.5] 1e10 0.075 [],
        snd (SolverThread.__init__ (Script.solver [] 0 0 [])
               (Script.conf (Some "Q"%string) 10 1 0.001)))%float.
Proof.
  apply (proj2 (proj2 (proj2 updateProgress_seeking)) (list Script.obs) RefLibm.libm
           (Script.solver [0; 0.5] 1e10 0 [])%float
           (snd (SolverThread.__init__ (Script.solver [] 0 0 [])
                   (Script.conf (Some "Q"%string) 10 1 0.001)))%float
           "Q"%string [0%float]); reflexivity.
Defined.

(** The second-stage branch, as an equation. *)
Lemma updateProgress_stage1 {Core : Type} (m : Libm) (solver : FlameSolver.t Core)
      (self : SolverThread.t) (mu : string) :
  measurement (Config.terminationCondition (SolverThread.conf self)) = Some mu ->
  SolverThread.stage self <> 0%Z ->
  SolverThread.updateProgress m solver self
  = (P <- SolverThread.candidate m self (terminationCondition solver) ;;
     Ok (set_progress (Py.max P (progress solver)) solver, self)).
Proof.
  intros Hm Hs. unfold SolverThread.updateProgress. rewrite Hm.
  apply Z.eqb_neq in Hs. rewrite Hs. reflexivity.
Qed.

Lemma candidate_zero_refCond (m : Libm) (self : SolverThread.t) (errNow r : float) :
  SolverThread.refCond self = Some r ->
  is_zero r = true ->
  SolverThread.candidate m self errNow = Raise ZeroDivisionError.
Proof.
  intros Hr Hz. unfold SolverThread.candidate. rewrite Hr. simpl.
  rewrite (truediv_zero _ _ Hz). reflexivity.
Qed.

Lemma candidate_value (m : Libm) (self : SolverThread.t) (errNow r : float) :
  SolverThread.refCond self = Some r ->
  is_zero r = false ->
  SolverThread.candidate m self errNow
  = Ok (Py.min
          (SolverThread.frac0 self
           + (1 - SolverThread.frac0 self)
             * pow_half m
                 (log10 m (tolerance (Config.terminationCondition (SolverThread.conf self))
                           + (errNow
                              - tolerance (Config.terminationCondition (SolverThread.conf self)))
                             / r)
                  / log10 m (tolerance (Config.terminationCondition (SolverThread.conf self)))))
          1.0)%float.
Proof.
  intros Hr Hz. unfold SolverThread.candidate. rewrite Hr. simpl.
  rewrite (truediv_ok _ _ Hz). reflexivity.
Qed.

Lemma ltb_nan_l (x : float) : (nan <? x)%float = false.
Proof. rewrite ltb_spec. reflexivity. Qed.

Lemma max_nan_l (x : float) : Py.max nan x = nan.
Proof. unfold Py.max. rewrite ltb_nan_l. reflexivity. Qed.

Lemma min_le_one (x : float) : (1 <? Py.min x 1)%float = false.
Proof.
  unfold Py.min. destruct (1 <? x)%float eqn:E; [reflexivity | exact E].
Qed.

Lemma min_not_nan (x : float) : is_nan x = false -> is_nan (Py.min x 1%float) = false.
Proof. unfold Py.min. intros H. destruct (1 <? x)%float; [reflexivity | exact H]. Qed.

Lemma max_not_nan (a b : float) :
  is_nan a = false -> is_nan b = false -> is_nan (Py.max a b) = false.
Proof. unfold Py.max. intros Ha Hb. destruct (a <? b)%float; assumption. Qed.

Lemma max_ge_r (a b : float) :
  is_nan a = false -> is_nan b = false -> (b <=? Py.max a b)%float = true.
Proof.
  unfold Py.max. intros Ha Hb. destruct (a <? b)%float eqn:E.
  - now apply PyFloat.leb_refl.
  - now apply PyFloat.not_ltb_leb.
Qed.



(** C7, as stated, fails: with [refCond = 0.0] the second-stage update
    raises [ZeroDivisionError]; with [tolerance = 1e-3], [refCond = 0.5]
    and [errNow = 1e-4] the argument of [log10] is negative and the
    published progress is NaN. *)
Lemma unguarded_update_counterexample :
  SolverThread.updateProgress RefLibm.libm
    (Script.solver [0; 0.5] 0.01 0.5 [])%float (converging_thread 0)
  = Raise ZeroDivisionError
  /\ (0.001 + (0.0001 - 0.001) / 0.5 <? 0)%float = true
  /\ SolverThread.updateProgress RefLibm.libm
       (Script.solver [0; 0.5] 0.0001 0.5 [])%float (converging_thread 0.5)
     = Ok (Script.solver [0; 0.5] 0.0001 nan []%float, converging_thread 0.5).
Proof. repeat split. Qed.

(** C7, amended: the second stage applies no clamp or guard to [A].  A
    zero [refCond] makes the update raise [ZeroDivisionError]; any other
    [refCond] makes it return, publishing [max(P, progress)] for the
    candidate [P], which is NaN whenever [P] is and a number whenever [P]
    and the previous value are numbers; and [P] is NaN as soon as the
    argument of the inner [log10] is negative. *)
Theorem converging_stage_is_unguarded
  (Core : Type) (m : Libm) (solver : FlameSolver.t Core)
  (self : SolverThread.t) (mu : string) (r : float) :
  measurement (Config.terminationCondition (SolverThread.conf self)) = Some mu ->
  SolverThread.stage self <> 0%Z ->
  SolverThread.refCond self = Some r ->
  (is_zero r = true ->
   SolverThread.updateProgress m solver self = Raise ZeroDivisionError)
  /\ (is_zero r = false ->
      exists P,
        SolverThread.candidate m self (terminationCondition solver) = Ok P
        /\ SolverThread.updateProgress m solver self
           = Ok (set_progress (Py.max P (progress solver)) solver, self)
        /\ (is_nan P = true -> Py.max P (progress solver) = nan)
        /\ (is_nan P = false -> is_nan (progress solver) = false ->
            is_nan (Py.max P (progress solver)) = false)
        /\ (C99 m ->
            (tolerance (Config.terminationCondition (SolverThread.conf self))
             + (terminationCondition solver
                - tolerance (Config.terminationCondition (SolverThread.conf self))) / r
             <? 0)%float = true ->
            P = nan)).
Proof.
  intros Hm Hs Hr. rewrite (updateProgress_stage1 m solver self mu Hm Hs). split.
  - intros Hz. rewrite (candidate_zero_refCond m self _ r Hr Hz). reflexivity.
  - intros Hz. rewrite (candidate_value m self _ r Hr Hz).
    eexists. split; [reflexivity|]. split; [reflexivity|]. split; [|split].
    + intros HP. rewrite (is_nan_eq _ HP). apply max_nan_l.
    + intros HP Hp. now apply max_not_nan.
    + intros HC Hneg. rewrite (log10_neg m HC _ Hneg), nan_div, (pow_half_nan m HC).
      rewrite mul_nan, add_nan. reflexivity.
Qed.

Lemma converging_stage_is_unguarded_witness :
  (SolverThread.updateProgress RefLibm.libm
     (Script.solver [0; 0.5] 0.01 0.5 [])%float (converging_thread 0)
   = Raise ZeroDivisionError)
  /\ exists P,
       SolverThread.candidate RefLibm.libm (converging_thread 0.5) 0.0001%float = Ok P
       /\ P = nan.
Proof.
  split.
  - apply (proj1 (converging_stage_is_unguarded (list Script.obs) RefLibm.libm
                    (Script.solver [0; 0.5] 0.01 0.5 [])%float (converging_thread 0)
                    "Q"%string 0%float eq_refl ltac:(discriminate) eq_refl)).
    reflexivity.
  - destruct (proj2 (converging_stage_is_unguarded (list Script.obs) RefLibm.libm
                       (Script.solver [0; 0.5] 0.0001 0.5 [])%float (converging_thread 0.5)
                       "Q"%string 0.5%float eq_refl ltac:(discriminate) eq_refl) eq_refl)
      as [P [HP [_ [_ [_ Hnan]]]]].
    exists P. split; [exact HP|]. apply Hnan; [exact RefLibm_C99 | reflexivity].
Defined.







(** ** The worker loop *)

Section WorkerFacts.
Context {Core : Type}.
Variable m : Libm.
Variable step : FlameSolver.t Core -> FlameSolver.t Core * bool.

Local Abbreviation state := (Worker.state (Core := Core)).
Local Abbreviation next := (Worker.next m step).
Local Abbreviation exec := (Worker.exec m step).
Local Abbreviation stop_flag := (Worker.stop_flag (Core := Core)).
Local Abbreviation dist := (Worker.dist (Core := Core)).
Local Abbreviation pending := (Worker.pending (Core := Core)).

(** The heuristic neither reads nor writes the stop flag. *)
Lemma updateProgress_set_stop (b : bool) (solver : FlameSolver.t Core)
      (self : SolverThread.t) :
  SolverThread.updateProgress m solver (SolverThread.set_stop b self)
  = (r <- SolverThread.updateProgress m solver self ;;
     Ok (fst r, SolverThread.set_stop b (snd r))).
Proof.
  unfold SolverThread.updateProgress, SolverThread.candidate. simpl.
  destruct (measurement (Config.terminationCondition (SolverThread.conf self))).
  - destruct (SolverThread.stage self =? 0)%Z.
    + destruct (Py.index_last (timeVector solver)); simpl; [|reflexivity].
      destruct (Py.truediv _ _); simpl; [|reflexivity].
      destruct (terminationCondition solver <? 1e9); reflexivity.
    + destruct (Py.getattr (SolverThread.refCond self)); simpl; [|reflexivity].
      destruct (Py.truediv _ _); reflexivity.
  - destruct (Py.index_last (timeVector solver)); simpl; [|reflexivity].
    destruct (Py.truediv _ _); reflexivity.
Qed.

Lemma updateProgress_keeps_stop (solver solver' : FlameSolver.t Core)
      (self self' : SolverThread.t) :
  SolverThread.updateProgress m solver self = Ok (solver', self') ->
  SolverThread._stop self' = SolverThread._stop self.
Proof.
  unfold SolverThread.updateProgress.
  destruct (measurement (Config.terminationCondition (SolverThread.conf self))).
  - destruct (SolverThread.stage self =? 0)%Z.
    + destruct (Py.index_last (timeVector solver)); simpl; [|discriminate].
      destruct (Py.truediv _ _); simpl; [|discriminate].
      destruct (terminationCondition solver <? 1e9); intros H; injection H as _ <-;
        reflexivity.
    + destruct (SolverThread.candidate m self (terminationCondition solver)); simpl;
        [|discriminate].
      intros H; injection H as _ <-; reflexivity.
  - destruct (Py.index_last (timeVector solver)); simpl; [|discriminate].
    destruct (Py.truediv _ _); simpl; [|discriminate].
    intros H; injection H as _ <-; reflexivity.
Qed.

(** Nothing in the loop clears the stop flag. *)
Lemma next_keeps_stop (st : state) : stop_flag st = true -> stop_flag (next st) = true.
Proof.
  destruct st as [solver w]. unfold stop_flag, Worker.next. simpl. intros H.
  destruct (Worker.at_ w); simpl; try assumption.
  - destruct (negb (SolverThread._stop (Worker.self w)) && negb (Worker.done w));
      assumption.
  - destruct (step solver); assumption.
  - destruct (Worker.i w mod 5 =? 0)%Z; [|assumption].
    destruct (SolverThread.updateProgress m solver (Worker.self w)) as [[s' th]|e] eqn:E;
      simpl; [|assumption].
    rewrite (updateProgress_keeps_stop _ _ _ _ E). assumption.
  - destruct (Worker.done w); assumption.
  - reflexivity.
Qed.

Lemma stop_sets_flag (st : state) : stop_flag (Worker.stop st) = true.
Proof. reflexivity. Qed.

(** [stop()] on a thread whose flag is set changes nothing. *)
Lemma stop_stopped (st : state) : stop_flag st = true -> Worker.stop st = st.
Proof.
  destruct st as [solver [[c s d g f r] l dn k]]. unfold stop_flag. simpl.
  intros ->. reflexivity.
Qed.

Lemma exec_keeps_stop (sched : list Worker.move) (st : state) :
  stop_flag st = true -> stop_flag (exec sched st) = true.
Proof.
  revert st. induction sched as [|mv sched IH]; intros st H; simpl; [assumption|].
  apply IH. destruct mv; simpl; [now apply next_keeps_stop | apply stop_sets_flag].
Qed.

(** Once the flag is set, further calls of [stop()] do not show. *)
Lemma exec_stopped (sched : list Worker.move) (st : state) :
  stop_flag st = true ->
  exec sched st = Worker.run_for m step (Worker.works sched) st.
Proof.
  revert st. induction sched as [|mv sched IH]; intros st H; simpl; [reflexivity|].
  destruct mv; simpl.
  - apply IH. now apply next_keeps_stop.
  - rewrite (stop_stopped st H). now apply IH.
Qed.

Lemma next_stopped (st : state) :
  stop_flag st = true ->
  (dist (next st) <= pred (dist st))%nat
  /\ (Worker.i (snd (next st)) + pending (next st) <= Worker.i (snd st) + pending st)%Z
  /\ (Worker.i (snd st) <= Worker.i (snd (next st)))%Z.
Proof.
  destruct st as [solver w]. unfold stop_flag, dist, pending, Worker.next. simpl.
  intros H. destruct (Worker.at_ w) eqn:E; simpl.
  - rewrite H. simpl. lia.
  - destruct (step solver). simpl. lia.
  - lia.
  - destruct (Worker.i w mod 5 =? 0)%Z; [|simpl; lia].
    destruct (SolverThread.updateProgress m solver (Worker.self w)) as [[s' th]|e];
      simpl; lia.
  - destruct (Worker.done w); simpl; lia.
  - simpl. lia.
  - rewrite E. lia.
  - rewrite E. lia.
Qed.

Lemma run_for_stopped (n : nat) (st : state) :
  stop_flag st = true ->
  (dist (Worker.run_for m step n st) <= dist st - n)%nat
  /\ (Worker.i (snd (Worker.run_for m step n st)) + pending (Worker.run_for m step n st)
      <= Worker.i (snd st) + pending st)%Z
  /\ (Worker.i (snd st) <= Worker.i (snd (Worker.run_for m step n st)))%Z.
Proof.
  revert st. induction n as [|n IH]; intros st H; simpl.
  - lia.
  - destruct (next_stopped st H) as [Hd [Hi Hm]].
    destruct (IH (next st) (next_keeps_stop st H)) as [Hd' [Hi' Hm']]. lia.
Qed.

Lemma dist_zero_halted (st : state) : dist st = 0%nat -> Worker.halted (snd st) = true.
Proof.
  unfold dist, Worker.halted, Worker.is_alive.
  destruct (Worker.at_ (snd st)); simpl; (discriminate || reflexivity).
Qed.

Lemma pending_bounds (st : state) : (0 <= pending st <= 1)%Z.
Proof. unfold pending. destruct (Worker.at_ (snd st)); lia. Qed.

End WorkerFacts.

(** C9: cancellation is cooperative.  The loop reads the stop flag at
    one place per iteration, its [while] test.  After [stop()] has set
    the flag, whatever the interleaving of further worker actions and
    [stop()] calls: the iteration counter [i], which counts the calls of
    [solver.step()], grows by at most one; six worker actions (the rest
    of one iteration and the exit) end [run()]; and calling [stop()]
    again, any number of times at any point, changes nothing. *)
Theorem stop_is_cooperative
  (Core : Type) (m : Libm) (step : FlameSolver.t Core -> FlameSolver.t Core * bool)
  (st : Worker.state) (sched : list Worker.move) :
  (forall st' : Worker.state,
      Worker.at_ (snd st') <> Worker.AtWhile ->
      Worker.at_ (snd (Worker.next m step (Worker.stop st')))
      = Worker.at_ (snd (Worker.next m step st')))
  /\ Worker.stop (Worker.stop st) = Worker.stop st
  /\ Worker.exec m step sched (Worker.stop st)
     = Worker.run_for m step (Worker.works sched) (Worker.stop st)
  /\ (Worker.i (snd st)
      <= Worker.i (snd (Worker.exec m step sched (Worker.stop st)))
      <= Worker.i (snd st) + 1)%Z
  /\ ((6 <= Worker.works sched)%nat ->
      Worker.halted (snd (Worker.exec m step sched (Worker.stop st))) = true).
Proof.
  assert (Hflag : Worker.stop_flag (Worker.stop st) = true) by reflexivity.
  split; [|split; [|split; [|split]]].
  - intros [solver w] Hpc. unfold Worker.next, Worker.stop. simpl in *.
    destruct (Worker.at_ w) eqn:E; simpl; try reflexivity; try congruence.
    + destruct (step solver). reflexivity.
    + destruct (Worker.i w mod 5 =? 0)%Z; [|reflexivity].
      change (SolverThread.stop (Worker.self w))
        with (SolverThread.set_stop true (Worker.self w)).
      rewrite updateProgress_set_stop.
      destruct (SolverThread.updateProgress m solver (Worker.self w)) as [[s' th]|e];
        reflexivity.
    + destruct (Worker.done w); reflexivity.
  - apply stop_stopped. exact Hflag.
  - apply exec_stopped. exact Hflag.
  - rewrite (exec_stopped m step sched _ Hflag).
    destruct (run_for_stopped m step (Worker.works sched) _ Hflag) as [_ [Hi Hm]].
    pose proof (pending_bounds (Worker.run_for m step (Worker.works sched) (Worker.stop st))).
    pose proof (pending_bounds (Worker.stop st)).
    change (Worker.i (snd (Worker.stop st))) with (Worker.i (snd st)) in *.
    lia.
  - intros Hn. rewrite (exec_stopped m step sched _ Hflag).
    apply dist_zero_halted.
    destruct (run_for_stopped m step (Worker.works sched) _ Hflag) as [Hd _].
    assert (Worker.dist (Worker.stop st) <= 6)%nat
      by (unfold Worker.dist; destruct (Worker.at_ (snd (Worker.stop st))); lia).
    lia.
Qed.

Lemma stop_is_cooperative_witness :
  Worker.halted
    (snd (Worker.exec RefLibm.libm Script.step
            [Worker.Work; Worker.Stop; Worker.Work; Worker.Work; Worker.Work;
             Worker.Work; Worker.Work]
            (Worker.stop fixed_end_start)))
  = true.
Proof.
  apply (proj2 (proj2 (proj2 (proj2
           (stop_is_cooperative (list Script.obs) RefLibm.libm Script.step
              fixed_end_start
              [Worker.Work; Worker.Stop; Worker.Work; Worker.Work; Worker.Work;
               Worker.Work; Worker.Work]))))).
  simpl. lia.
Defined.

Section Completion.
Context {Core : Type}.
Variable m : Libm.
Variable step : FlameSolver.t Core -> FlameSolver.t Core * bool.

Local Abbreviation state := (Worker.state (Core := Core)).
Local Abbreviation dist := (Worker.dist (Core := Core)).
Local Abbreviation completing := (Worker.completing m).
Local Abbreviation update_returns := (Worker.update_returns m).

Lemma run_for_halted (n : nat) (st : state) :
  Worker.halted (snd st) = true -> Worker.run_for m step n st = st.
Proof.
  intros H. induction n as [|n IH]; simpl; [reflexivity|].
  assert (Hn : Worker.next m step st = st).
  { destruct st as [solver w]. unfold Worker.halted, Worker.is_alive in H.
    unfold Worker.next. simpl in *. destruct (Worker.at_ w); try discriminate; reflexivity. }
  rewrite Hn. exact IH.
Qed.

Lemma completing_next (st : state) :
  completing st ->
  completing (Worker.next m step st)
  /\ dist (Worker.next m step st) = pred (dist st).
Proof.
  destruct st as [solver w]. unfold completing, update_returns, dist, Worker.next.
  simpl. intros [Hd H]. destruct (Worker.at_ w) eqn:E; simpl.
  - rewrite Hd, andb_false_r. simpl. auto.
  - contradiction.
  - auto.
  - destruct (Worker.i w mod 5 =? 0)%Z; [|simpl; auto].
    specialize (H eq_refl).
    destruct (SolverThread.updateProgress m solver (Worker.self w)) as [[s' th]|e];
      simpl in *; [auto | discriminate].
  - rewrite Hd. simpl. auto.
  - auto.
  - rewrite E. auto.
  - contradiction.
Qed.

Lemma completing_stop (st : state) :
  completing st -> completing (Worker.stop st) /\ dist (Worker.stop st) = dist st.
Proof.
  destruct st as [solver w]. unfold completing, update_returns, dist, Worker.stop.
  simpl. intros [Hd H]. split; [|reflexivity]. split; [assumption|].
  destruct (Worker.at_ w); try assumption;
    intros Hi; specialize (H Hi);
    change (SolverThread.stop (Worker.self w))
      with (SolverThread.set_stop true (Worker.self w));
    rewrite updateProgress_set_stop;
    destruct (SolverThread.updateProgress m solver (Worker.self w)); simpl in *;
    assumption.
Qed.

Lemma completing_exec (sched : list Worker.move) (st : state) :
  completing st ->
  completing (Worker.exec m step sched st)
  /\ dist (Worker.exec m step sched st) = (dist st - Worker.works sched)%nat.
Proof.
  revert st. induction sched as [|mv sched IH]; intros st H; simpl.
  - split; [assumption | lia].
  - destruct mv; simpl.
    + destruct (completing_next st H) as [H' Hd].
      destruct (IH _ H') as [H'' Hd']. split; [assumption | lia].
    + destruct (completing_stop st H) as [H' Hd].
      destruct (IH _ H') as [H'' Hd']. split; [assumption | lia].
Qed.

End Completion.




(** ** The widget *)

Section WidgetFacts.
Context {Core : Type}.
Variable validate : Config.t -> bool.
Variable setup : Config.t -> Config.t.
Variable new_solver : Config.t -> FlameSolver.t Core.
Variable initialize : FlameSolver.t Core -> FlameSolver.t Core.

Local Abbreviation run := (SolverWidget.run validate setup new_solver initialize).
Local Abbreviation ensure_solver :=
  (SolverWidget.ensure_solver validate setup new_solver initialize).

Lemma ensure_solver_some (w w1 : SolverWidget.t Core) :
  ensure_solver w = Ok w1 -> SolverWidget.solver w1 <> None.
Proof.
  unfold SolverWidget.ensure_solver.
  destruct (SolverWidget.solver w) eqn:E.
  - intros H; injection H as <-. rewrite E. discriminate.
  - destruct (validate (SolverWidget.conf w)); [|discriminate].
    intros H; injection H as <-. simpl. discriminate.
Qed.

(** What a call of [run] that finds no live worker does. *)
Lemma run_inactive (w w1 : SolverWidget.t Core) :
  SolverWidget.active w = false ->
  run w = Ok w1 ->
  exists w0 s,
    ensure_solver w = Ok w0
    /\ SolverWidget.solver w0 = Some s
    /\ w1 = {| SolverWidget.conf := SolverWidget.conf w0;
               SolverWidget.solver := Some (fst (SolverThread.__init__ s (SolverWidget.conf w0)));
               SolverWidget.solverThread :=
                 Some (Worker.start (snd (SolverThread.__init__ s (SolverWidget.conf w0))));
               SolverWidget.updateTimer := true;
               SolverWidget.pauseButton := SolverWidget.pauseButton w0;
               SolverWidget.log :=
                 SolverWidget.log w0
                 ++ [SolverWidget.NewSolverThread; SolverWidget.ThreadStart;
                     SolverWidget.TimerStart] |}.
Proof.
  intros Ha. unfold SolverWidget.run. rewrite Ha.
  destruct (ensure_solver w) as [w0|e] eqn:E; simpl; [|discriminate].
  pose proof (ensure_solver_some w w0 E) as Hs.
  destruct (SolverWidget.solver w0) as [s|] eqn:Es; [|congruence].
  intros H; injection H as <-. exists w0, s. auto.
Qed.

Lemma run_active_after (w w1 : SolverWidget.t Core) :
  run w = Ok w1 -> SolverWidget.active w1 = true.
Proof.
  destruct (SolverWidget.active w) eqn:Ha.
  - unfold SolverWidget.run. rewrite Ha. intros H; injection H as <-. exact Ha.
  - intros H. destruct (run_inactive w w1 Ha H) as [w0 [s [_ [_ ->]]]]. reflexivity.
Qed.

Lemma count_app (c : SolverWidget.call) (a b : list SolverWidget.call) :
  SolverWidget.count c (a ++ b) = (SolverWidget.count c a + SolverWidget.count c b)%nat.
Proof. unfold SolverWidget.count. rewrite filter_app, length_app. reflexivity. Qed.

End WidgetFacts.

(** C8: [run] (the Start button) on a widget whose worker is alive
    returns the widget as it is: no validation, no new solver, no new
    thread.  Hence two calls in a row leave one live worker, the second
    call adding nothing to the log of outgoing calls; between them at
    most one thread and at most one solver have been created. *)
Theorem run_twice_one_worker
  (Core : Type) (validate : Config.t -> bool) (setup : Config.t -> Config.t)
  (new_solver : Config.t -> FlameSolver.t Core)
  (initialize : FlameSolver.t Core -> FlameSolver.t Core)
  (w : SolverWidget.t Core) :
  (SolverWidget.active w = true ->
   SolverWidget.run validate setup new_solver initialize w = Ok w)
  /\ (forall w1 : SolverWidget.t Core,
         SolverWidget.run validate setup new_solver initialize w = Ok w1 ->
         SolverWidget.run validate setup new_solver initialize w1 = Ok w1
         /\ SolverWidget.active_workers w1 = 1%nat
         /\ (SolverWidget.count SolverWidget.NewSolverThread (SolverWidget.log w1)
             <= SolverWidget.count SolverWidget.NewSolverThread (SolverWidget.log w) + 1)%nat
         /\ (SolverWidget.count SolverWidget.NewFlameSolver (SolverWidget.log w1)
             <= SolverWidget.count SolverWidget.NewFlameSolver (SolverWidget.log w) + 1)%nat
         /\ (SolverWidget.count SolverWidget.ConfValidate (SolverWidget.log w1)
             <= SolverWidget.count SolverWidget.ConfValidate (SolverWidget.log w) + 1)%nat).
Proof.
  assert (Hnoop : forall v : SolverWidget.t Core,
             SolverWidget.active v = true ->
             SolverWidget.run validate setup new_solver initialize v = Ok v).
  { intros v Hv. unfold SolverWidget.run. rewrite Hv. reflexivity. }
  split; [apply Hnoop|].
  intros w1 H.
  pose proof (run_active_after validate setup new_solver initialize w w1 H) as Ha1.
  split; [now apply Hnoop|].
  split; [unfold SolverWidget.active_workers; now rewrite Ha1|].
  destruct (SolverWidget.active w) eqn:Ha.
  - rewrite (Hnoop w Ha) in H. injection H as <-. lia.
  - destruct (run_inactive validate setup new_solver initialize w w1 Ha H)
      as [w0 [s [H0 [_ ->]]]]. simpl. rewrite !count_app. simpl.
    unfold SolverWidget.ensure_solver in H0.
    destruct (SolverWidget.solver w).
    + injection H0 as <-. cbn. lia.
    + destruct (validate (SolverWidget.conf w)); [|discriminate].
      injection H0 as <-. simpl. rewrite !count_app. cbn. lia.
Qed.

Lemma run_twice_one_worker_witness :
  exists w1,
    scripted_run fixed_end_script (new_widget fixed_conf) = Ok w1
    /\ scripted_run fixed_end_script w1 = Ok w1
    /\ SolverWidget.active_workers w1 = 1%nat
    /\ SolverWidget.log w1
       = [SolverWidget.ConfValidate; SolverWidget.ConfSetup; SolverWidget.NewFlameSolver;
          SolverWidget.SolverInitialize; SolverWidget.NewSolverThread;
          SolverWidget.ThreadStart; SolverWidget.TimerStart].
Proof.
  eexists. split; [reflexivity|].
  split; [|split; reflexivity].
  apply (proj2 (run_twice_one_worker (list Script.obs) (fun _ => true) (fun c => c)
                  (fun _ => Script.solver [] 1e10 0 fixed_end_script)
                  (fun s => Script.solver [0] 1e10 0 fixed_end_script)
                  (new_widget fixed_conf))).
  reflexivity.
Defined.

(** C10: constructing a [SolverThread] writes [progress = 0.0] to the
    solver it is given and starts the new thread object at stage 0 with
    no [refCond].  Hence resuming (Start, or Pause pressed again, on a
    widget that has a solver and a worker that is no longer alive) drops
    the published progress to 0.0 and discards the stage and the
    reference error, while the solver's time series is kept. *)
Theorem new_thread_resets_progress
  (Core : Type) (validate : Config.t -> bool) (setup : Config.t -> Config.t)
  (new_solver : Config.t -> FlameSolver.t Core)
  (initialize : FlameSolver.t Core -> FlameSolver.t Core) :
  (forall (s : FlameSolver.t Core) (c : Config.t),
      progress (fst (SolverThread.__init__ s c)) = 0
      /\ timeVector (fst (SolverThread.__init__ s c)) = timeVector s
      /\ terminationCondition (fst (SolverThread.__init__ s c)) = terminationCondition s
      /\ SolverThread.stage (snd (SolverThread.__init__ s c)) = 0%Z
      /\ SolverThread.refCond (snd (SolverThread.__init__ s c)) = None)
  /\ (forall (w : SolverWidget.t Core) (s : FlameSolver.t Core) (th : Worker.t),
         SolverWidget.solver w = Some s ->
         SolverWidget.solverThread w = Some th ->
         Worker.is_alive th = false ->
         forall resume,
           resume = SolverWidget.run validate setup new_solver initialize
           \/ resume = SolverWidget.pause validate setup new_solver initialize ->
           exists w1 s1 th1,
             resume w = Ok w1
             /\ SolverWidget.solver w1 = Some s1
             /\ SolverWidget.solverThread w1 = Some th1
             /\ progress s1 = 0
             /\ timeVector s1 = timeVector s
             /\ Worker.is_alive th1 = true
             /\ SolverThread.stage (Worker.self th1) = 0%Z
             /\ SolverThread.refCond (Worker.self th1) = None).
Proof.
  split.
  - intros s c. repeat split.
  - intros w s th Hs Ht Hdead resume Hr.
    assert (Hrun : forall txt,
               SolverWidget.run validate setup new_solver initialize
                 (SolverWidget.set_pause_text txt w)
               = Ok {| SolverWidget.conf := SolverWidget.conf w;
                       SolverWidget.solver :=
                         Some (fst (SolverThread.__init__ s (SolverWidget.conf w)));
                       SolverWidget.solverThread :=
                         Some (Worker.start
                                 (snd (SolverThread.__init__ s (SolverWidget.conf w))));
                       SolverWidget.updateTimer := true;
                       SolverWidget.pauseButton := txt;
                       SolverWidget.log :=
                         SolverWidget.log w
                         ++ [SolverWidget.NewSolverThread; SolverWidget.ThreadStart;
                             SolverWidget.TimerStart] |}).
    { intros txt. unfold SolverWidget.run, SolverWidget.active, SolverWidget.ensure_solver.
      simpl. rewrite Ht, Hdead, Hs. simpl. rewrite Hs. reflexivity. }
    destruct Hr as [-> | ->].
    + assert (Hw : SolverWidget.set_pause_text (SolverWidget.pauseButton w) w = w)
        by (destruct w; reflexivity).
      specialize (Hrun (SolverWidget.pauseButton w)). rewrite Hw in Hrun.
      rewrite Hrun. do 3 eexists.
      split; [reflexivity|]. simpl. repeat split.
    + unfold SolverWidget.pause. rewrite Ht, Hdead. simpl. rewrite Hrun. simpl.
      do 3 eexists. split; [reflexivity|]. simpl. repeat split.
Qed.

Lemma new_thread_resets_progress_witness :
  exists w1 s1 th1,
    SolverWidget.pause (fun _ => true) (fun c => c)
      (fun _ => Script.solver [] 1e10 0 []) (fun s => s) paused_widget = Ok w1
    /\ SolverWidget.solver w1 = Some s1
    /\ SolverWidget.solverThread w1 = Some th1
    /\ progress s1 = 0
    /\ timeVector s1 = [0; 1; 2]
    /\ Worker.is_alive th1 = true
    /\ SolverThread.stage (Worker.self th1) = 0%Z
    /\ SolverThread.refCond (Worker.self th1) = None.
Proof.
  apply (proj2 (new_thread_resets_progress (list Script.obs) (fun _ => true) (fun c => c)
                  (fun _ => Script.solver [] 1e10 0 []) (fun s => s))
               paused_widget (Script.solver [0; 1; 2] 0.01 0.6 [])
               {| Worker.self := SolverThread.stop (converging_thread 0.5);
                  Worker.at_ := Worker.Finished; Worker.done := false; Worker.i := 7 |}
               eq_refl eq_refl eq_refl).
  right. reflexivity.
Defined.

(** * Further properties of the code *)

(** ** updateProgress: what it writes and when it raises *)

(** [updateProgress] writes [progress] and, at the change of stage,
    [stage] and [refCond]; it leaves the solver's time series, error
    metric and internals, and the thread's configuration, [frac0] and
    flags, as they are; the stage never goes from 1 back to 0. *)
Theorem updateProgress_frame
  (Core : Type) (m : Libm) (solver solver' : FlameSolver.t Core)
  (self self' : SolverThread.t) :
  SolverThread.updateProgress m solver self = Ok (solver', self') ->
  timeVector solver' = timeVector solver
  /\ terminationCondition solver' = terminationCondition solver
  /\ core solver' = core solver
  /\ SolverThread.conf self' = SolverThread.conf self
  /\ SolverThread.frac0 self' = SolverThread.frac0 self
  /\ SolverThread._stop self' = SolverThread._stop self
  /\ SolverThread.daemon self' = SolverThread.daemon self
  /\ (self' = self
      \/ (SolverThread.stage self = 0%Z
          /\ SolverThread.stage self' = 1%Z
          /\ SolverThread.refCond self' = Some (terminationCondition solver))).
Proof.
  unfold SolverThread.updateProgress.
  destruct (measurement (Config.terminationCondition (SolverThread.conf self))).
  - destruct (SolverThread.stage self =? 0)%Z eqn:Es.
    + destruct (Py.index_last (timeVector solver)); simpl; [|discriminate].
      destruct (Py.truediv _ _); simpl; [|discriminate].
      apply Z.eqb_eq in Es.
      destruct (terminationCondition solver <? 1e9); intros H; injection H as <- <-;
        simpl; repeat split; auto.
    + destruct (SolverThread.candidate m self (terminationCondition solver)); simpl;
        [|discriminate].
      intros H; injection H as <- <-. simpl. repeat split; auto.
  - destruct (Py.index_last (timeVector solver)); simpl; [|discriminate].
    destruct (Py.truediv _ _); simpl; [|discriminate].
    intros H; injection H as <- <-. simpl. repeat split; auto.
Qed.

Lemma updateProgress_frame_witness :
  timeVector (Script.solver [0; 0.5] 0.5 0.075 []) = [0; 0.5]
  /\ terminationCondition (Script.solver [0; 0.5] 0.5 0.075 []) = 0.5
  /\ core (Script.solver [0; 0.5] 0.5 0.075 []) = []
  /\ SolverThread.conf (converging_thread 0.5) = SolverThread.conf (fresh_thread steady_conf)
  /\ SolverThread.frac0 (converging_thread 0.5) = SolverThread.frac0 (fresh_thread steady_conf)
  /\ SolverThread._stop (converging_thread 0.5) = SolverThread._stop (fresh_thread steady_conf)
  /\ SolverThread.daemon (converging_thread 0.5)
     = SolverThread.daemon (fresh_thread steady_conf)
  /\ (converging_thread 0.5 = fresh_thread steady_conf
      \/ (SolverThread.stage (fresh_thread steady_conf) = 0%Z
          /\ SolverThread.stage (converging_thread 0.5) = 1%Z
          /\ SolverThread.refCond (converging_thread 0.5) = Some 0.5)).
Proof.
  apply (updateProgress_frame (list Script.obs) RefLibm.libm
           (Script.solver [0; 0.5] 0.5 0 []) (Script.solver [0; 0.5] 0.5 0.075 [])
           (fresh_thread steady_conf) (converging_thread 0.5)).
  reflexivity.
Defined.

Lemma index_last_nil_iff (ts : list float) :
  Py.index_last ts = Raise IndexError <-> ts = [].
Proof.
  unfold Py.index_last. split.
  - destruct (rev ts) eqn:E; [|discriminate]. intros _.
    rewrite <- (rev_involutive ts), E. reflexivity.
  - intros ->. reflexivity.
Qed.

Lemma index_last_cases (ts : list float) :
  (ts = [] /\ Py.index_last ts = Raise IndexError)
  \/ (exists now, ts <> [] /\ Py.index_last ts = Ok now).
Proof.
  destruct ts as [|x ts]; [left; split; reflexivity|].
  right. unfold Py.index_last. destruct (rev (x :: ts)) eqn:E.
  - apply (f_equal (@rev float)) in E. rewrite rev_involutive in E. discriminate.
  - eexists. split; [discriminate | reflexivity].
Qed.

(** The exceptions of [updateProgress], exactly.  [IndexError]: the time
    series is empty and the branch reads it (no measurement, or stage
    0).  [ZeroDivisionError]: the divisor of the branch taken is zero
    ([tEnd], [steadyPeriod], or [refCond]).  [AttributeError]: the second
    stage is entered with no [refCond].  Anything else returns. *)
Theorem updateProgress_raises_iff
  (Core : Type) (m : Libm) (solver : FlameSolver.t Core) (self : SolverThread.t) :
  let TC := Config.terminationCondition (SolverThread.conf self) in
  let reads_time := measurement TC = None \/ SolverThread.stage self = 0%Z in
  (SolverThread.updateProgress m solver self = Raise IndexError
   <-> reads_time /\ timeVector solver = [])
  /\ (SolverThread.updateProgress m solver self = Raise ZeroDivisionError
      <-> (measurement TC = None /\ timeVector solver <> [] /\ is_zero (tEnd TC) = true)
          \/ (measurement TC <> None /\ SolverThread.stage self = 0%Z
              /\ timeVector solver <> [] /\ is_zero (steadyPeriod TC) = true)
          \/ (measurement TC <> None /\ SolverThread.stage self <> 0%Z
              /\ exists r, SolverThread.refCond self = Some r /\ is_zero r = true))
  /\ (SolverThread.updateProgress m solver self = Raise AttributeError
      <-> measurement TC <> None /\ SolverThread.stage self <> 0%Z
          /\ SolverThread.refCond self = None)
  /\ SolverThread.updateProgress m solver self <> Raise ConfigValidationError.
Proof.
  intros TC reads_time. subst TC reads_time.
  unfold SolverThread.updateProgress, SolverThread.candidate, Py.truediv.
  destruct (measurement (Config.terminationCondition (SolverThread.conf self))) as [mu|].
  - destruct (SolverThread.stage self =? 0)%Z eqn:Es;
      [apply Z.eqb_eq in Es | apply Z.eqb_neq in Es].
    + destruct (index_last_cases (timeVector solver)) as [[Ht ->]|[now [Ht ->]]]; simpl;
        [|destruct (is_zero (steadyPeriod
                               (Config.terminationCondition (SolverThread.conf self))))
            eqn:Ez; simpl];
        repeat split; try discriminate; intros;
        firstorder (congruence || discriminate).
    + destruct (SolverThread.refCond self) as [r|] eqn:Er; simpl;
        [destruct (is_zero r) eqn:Ez; simpl|];
        repeat split; try discriminate; intros;
        firstorder (congruence || discriminate).
  - destruct (index_last_cases (timeVector solver)) as [[Ht ->]|[now [Ht ->]]]; simpl;
      [|destruct (is_zero (tEnd (Config.terminationCondition (SolverThread.conf self))))
          eqn:Ez; simpl];
      repeat split; try discriminate; intros;
      firstorder (congruence || discriminate).
Qed.

(** ** The worker: stage, reference error and return *)

Lemma updateProgress_AttributeError {Core : Type} (m : Libm)
      (solver : FlameSolver.t Core) (self : SolverThread.t) :
  SolverThread.updateProgress m solver self = Raise AttributeError ->
  SolverThread.stage self <> 0%Z /\ SolverThread.refCond self = None.
Proof.
  unfold SolverThread.updateProgress, SolverThread.candidate, Py.truediv, Py.index_last.
  destruct (measurement (Config.terminationCondition (SolverThread.conf self))).
  - destruct (SolverThread.stage self =? 0)%Z eqn:Es.
    + destruct (rev (timeVector solver)); simpl; [discriminate|].
      destruct (is_zero _); simpl; discriminate.
    + apply Z.eqb_neq in Es. destruct (SolverThread.refCond self); simpl.
      * destruct (is_zero _); simpl; discriminate.
      * auto.
  - destruct (rev (timeVector solver)); simpl; [discriminate|].
    destruct (is_zero _); simpl; discriminate.
Qed.

(** What [updateProgress] may do to the thread object. *)
Lemma updateProgress_self {Core : Type} (m : Libm)
      (solver solver' : FlameSolver.t Core) (self self' : SolverThread.t) :
  SolverThread.updateProgress m solver self = Ok (solver', self') ->
  self' = self
  \/ (SolverThread.stage self = 0%Z
      /\ self' = SolverThread.enter_stage1 (terminationCondition solver) self).
Proof.
  unfold SolverThread.updateProgress.
  destruct (measurement (Config.terminationCondition (SolverThread.conf self))).
  - destruct (SolverThread.stage self =? 0)%Z eqn:Es.
    + destruct (Py.index_last (timeVector solver)); simpl; [|discriminate].
      destruct (Py.truediv _ _); simpl; [|discriminate].
      apply Z.eqb_eq in Es.
      destruct (terminationCondition solver <? 1e9); intros H; injection H as _ <-; auto.
    + destruct (SolverThread.candidate m self (terminationCondition solver)); simpl;
        [|discriminate].
      intros H; injection H as _ <-. auto.
  - destruct (Py.index_last (timeVector solver)); simpl; [|discriminate].
    destruct (Py.truediv _ _); simpl; [|discriminate].
    intros H; injection H as _ <-. auto.
Qed.

Section StageFacts.
Context {Core : Type}.
Variable m : Libm.
Variable step : FlameSolver.t Core -> FlameSolver.t Core * bool.

Local Abbreviation state := (Worker.state (Core := Core)).

(** What one action of the loop may do to the thread object. *)
Lemma next_self (st : state) :
  Worker.self (snd (Worker.next m step st)) = Worker.self (snd st)
  \/ Worker.self (snd (Worker.next m step st))
     = SolverThread.set_stop true (Worker.self (snd st))
  \/ (SolverThread.stage (Worker.self (snd st)) = 0%Z
      /\ Worker.self (snd (Worker.next m step st))
         = SolverThread.enter_stage1 (terminationCondition (fst st)) (Worker.self (snd st))).
Proof.
  destruct st as [solver w]. unfold Worker.next. simpl.
  destruct (Worker.at_ w); simpl; auto.
  - destruct (negb (SolverThread._stop (Worker.self w)) && negb (Worker.done w)); auto.
  - destruct (step solver); auto.
  - destruct (Worker.i w mod 5 =? 0)%Z; auto.
    destruct (SolverThread.updateProgress m solver (Worker.self w)) as [[s' th]|e] eqn:E;
      simpl; auto.
    destruct (updateProgress_self m _ _ _ _ E) as [-> | [Hs ->]]; auto.
  - destruct (Worker.done w); auto.
Qed.

Lemma perform_refCond_set (mv : Worker.move) (st : state) :
  refCond_set (Worker.self (snd st)) ->
  refCond_set (Worker.self (snd (Worker.perform m step mv st))).
Proof.
  unfold refCond_set. intros H. destruct mv; simpl.
  - destruct (next_self st) as [-> | [-> | [_ ->]]]; simpl; auto.
    right. discriminate.
  - exact H.
Qed.

Lemma perform_no_AttributeError (mv : Worker.move) (st : state) :
  refCond_set (Worker.self (snd st)) ->
  Worker.at_ (snd st) <> Worker.Died AttributeError ->
  Worker.at_ (snd (Worker.perform m step mv st)) <> Worker.Died AttributeError.
Proof.
  intros Hr Hd. destruct mv; simpl; [|exact Hd].
  destruct st as [solver w]. unfold Worker.next. simpl in *.
  destruct (Worker.at_ w) eqn:E; simpl; try discriminate; try congruence.
  - destruct (negb (SolverThread._stop (Worker.self w)) && negb (Worker.done w));
      simpl; discriminate.
  - destruct (step solver); simpl; discriminate.
  - destruct (Worker.i w mod 5 =? 0)%Z; simpl; [|discriminate].
    destruct (SolverThread.updateProgress m solver (Worker.self w)) as [[s' th]|e] eqn:Eu;
      simpl; [discriminate|].
    intros H. injection H as ->.
    destruct (updateProgress_AttributeError m _ _ Eu) as [Hs Hn].
    destruct Hr as [Hr|Hr]; congruence.
  - destruct (Worker.done w); simpl; discriminate.
Qed.

(** In the second stage no action changes the stage, the reference
    error, the configuration or [frac0]. *)
Lemma perform_stage1 (mv : Worker.move) (st : state) :
  SolverThread.stage (Worker.self (snd st)) <> 0%Z ->
  SolverThread.set_stop true (Worker.self (snd (Worker.perform m step mv st)))
  = SolverThread.set_stop true (Worker.self (snd st)).
Proof.
  intros Hs. destruct mv; simpl; [|reflexivity].
  destruct (next_self st) as [-> | [-> | [H0 _]]]; [reflexivity | reflexivity | congruence].
Qed.

Lemma exec_stage1 (sched : list Worker.move) (st : state) :
  SolverThread.stage (Worker.self (snd st)) <> 0%Z ->
  SolverThread.set_stop true (Worker.self (snd (Worker.exec m step sched st)))
  = SolverThread.set_stop true (Worker.self (snd st)).
Proof.
  revert st. induction sched as [|mv sched IH]; intros st Hs; simpl; [reflexivity|].
  pose proof (perform_stage1 mv st Hs) as H1.
  rewrite IH; [exact H1|].
  apply (f_equal SolverThread.stage) in H1. simpl in H1. congruence.
Qed.

(** The configuration and [frac0] of a thread never change. *)
Lemma exec_conf_frac0 (sched : list Worker.move) (st : state) :
  SolverThread.conf (Worker.self (snd (Worker.exec m step sched st)))
  = SolverThread.conf (Worker.self (snd st))
  /\ SolverThread.frac0 (Worker.self (snd (Worker.exec m step sched st)))
     = SolverThread.frac0 (Worker.self (snd st)).
Proof.
  revert st. induction sched as [|mv sched IH]; intros st; simpl; [auto|].
  destruct (IH (Worker.perform m step mv st)) as [-> ->].
  destruct mv; simpl; [|auto].
  destruct (next_self st) as [-> | [-> | [_ ->]]]; auto.
Qed.

End StageFacts.

(** A thread made by the constructor never reads [refCond] before
    assigning it: along every interleaving of worker actions and
    [stop()] calls, stage 1 comes with a [refCond], the heuristic does
    not raise [AttributeError], and the thread does not die of one. *)
Theorem refCond_read_after_write
  (Core : Type) (m : Libm) (step : FlameSolver.t Core -> FlameSolver.t Core * bool)
  (solver : FlameSolver.t Core) (c : Config.t) (sched : list Worker.move) :
  let st := Worker.exec m step sched
              (fst (SolverThread.__init__ solver c),
               Worker.start (snd (SolverThread.__init__ solver c))) in
  refCond_set (Worker.self (snd st))
  /\ SolverThread.updateProgress m (fst st) (Worker.self (snd st)) <> Raise AttributeError
  /\ Worker.at_ (snd st) <> Worker.Died AttributeError.
Proof.
  cbv zeta.
  assert (H : forall st : Worker.state,
             refCond_set (Worker.self (snd st)) ->
             Worker.at_ (snd st) <> Worker.Died AttributeError ->
             refCond_set (Worker.self (snd (Worker.exec m step sched st)))
             /\ Worker.at_ (snd (Worker.exec m step sched st)) <> Worker.Died AttributeError).
  { induction sched as [|mv sched IH]; intros st Hr Hd; simpl; [auto|].
    apply IH; [now apply perform_refCond_set | now apply perform_no_AttributeError]. }
  destruct (H (fst (SolverThread.__init__ solver c),
               Worker.start (snd (SolverThread.__init__ solver c)))) as [Hr Hd].
  - left. reflexivity.
  - discriminate.
  - split; [exact Hr|]. split; [|exact Hd].
    intros E. destruct (updateProgress_AttributeError m _ _ E) as [Hs Hn].
    destruct Hr as [Hr|Hr]; congruence.
Qed.

(** The reference error is captured once: from a state in the second
    stage on, whatever the worker and [stop()] calls do, the thread
    keeps its stage and its [refCond]; and a thread keeps its
    configuration and [frac0] from any state on. *)
Theorem refCond_captured_once
  (Core : Type) (m : Libm) (step : FlameSolver.t Core -> FlameSolver.t Core * bool)
  (st : Worker.state) (sched : list Worker.move) :
  (SolverThread.stage (Worker.self (snd st)) <> 0%Z ->
   SolverThread.stage (Worker.self (snd (Worker.exec m step sched st)))
   = SolverThread.stage (Worker.self (snd st))
   /\ SolverThread.refCond (Worker.self (snd (Worker.exec m step sched st)))
      = SolverThread.refCond (Worker.self (snd st)))
  /\ SolverThread.conf (Worker.self (snd (Worker.exec m step sched st)))
     = SolverThread.conf (Worker.self (snd st))
  /\ SolverThread.frac0 (Worker.self (snd (Worker.exec m step sched st)))
     = SolverThread.frac0 (Worker.self (snd st)).
Proof.
  split; [|apply exec_conf_frac0].
  intros Hs. pose proof (exec_stage1 m step sched st Hs) as H.
  split.
  - apply (f_equal SolverThread.stage) in H. exact H.
  - apply (f_equal SolverThread.refCond) in H. exact H.
Qed.

Lemma refCond_captured_once_witness :
  SolverThread.stage
    (Worker.self (snd (Worker.exec RefLibm.libm Script.step
                         [Worker.Work; Worker.Work; Worker.Stop; Worker.Work]
                         (Worker.run_for RefLibm.libm Script.step 25 zero_error_start))))
  = 1%Z
  /\ SolverThread.refCond
       (Worker.self (snd (Worker.exec RefLibm.libm Script.step
                            [Worker.Work; Worker.Work; Worker.Stop; Worker.Work]
                            (Worker.run_for RefLibm.libm Script.step 25 zero_error_start))))
     = Some 0.
Proof.
  apply (proj1 (refCond_captured_once (list Script.obs) RefLibm.libm Script.step
                  (Worker.run_for RefLibm.libm Script.step 25 zero_error_start)
                  [Worker.Work; Worker.Work; Worker.Stop; Worker.Work])).
  vm_compute. discriminate.
Defined.

(** ** An error metric that is not a number *)

Lemma sub_nan_l (x : float) : (nan - x) = nan.
Proof. apply Prim2SF_inj. rewrite sub_spec. reflexivity. Qed.

Lemma ltb_nan_any (e x : float) : is_nan e = true -> (e <? x) = false.
Proof. intros H. rewrite (is_nan_eq _ H). apply ltb_nan_l. Qed.

(** A NaN error metric is taken as "no reading yet" in the first stage:
    however many invocations see a NaN (or a value of at least [1e9]),
    the thread stays in stage 0 with no [refCond].  In the second stage
    it is not filtered: with a C99 mathematical library the published
    progress becomes NaN. *)
Theorem nan_error_metric
  (Core : Type) (m : Libm) (solver : FlameSolver.t Core) (self : SolverThread.t)
  (mu : string) :
  measurement (Config.terminationCondition (SolverThread.conf self)) = Some mu ->
  (SolverThread.stage self = 0%Z ->
   is_zero (steadyPeriod (Config.terminationCondition (SolverThread.conf self))) = false ->
   forall obs : list (float * float),
     Forall (fun o : float * float =>
               is_nan (snd o) = true \/ (1e9 <=? snd o) = true) obs ->
     exists solver', SolverThread.updates m obs (solver, self) = Ok (solver', self))
  /\ (SolverThread.stage self <> 0%Z ->
      C99 m ->
      forall r : float,
        SolverThread.refCond self = Some r ->
        is_zero r = false ->
        is_nan (terminationCondition solver) = true ->
        SolverThread.updateProgress m solver self = Ok (set_progress nan solver, self)).
Proof.
  intros Hm. split.
  - intros Hs Hz obs Hall.
    apply (updates_stay_seeking m mu obs solver self Hm Hs Hz).
    eapply Forall_impl; [|exact Hall]. simpl.
    intros o [H|H]; [now apply ltb_nan_any | now apply PyFloat.leb_not_ltb].
  - intros Hs HC r Hr Hz Hn.
    rewrite (updateProgress_stage1 m solver self mu Hm Hs).
    rewrite (candidate_value m self _ r Hr Hz).
    rewrite (is_nan_eq _ Hn), sub_nan_l, nan_div, add_nan.
    rewrite (log10_nan m HC), nan_div, (pow_half_nan m HC), mul_nan, add_nan.
    simpl. change (Py.min nan 1) with nan. rewrite max_nan_l. reflexivity.
Qed.

Lemma nan_error_metric_witness :
  (exists solver',
      SolverThread.updates RefLibm.libm [(0.1, nan); (0.2, 1e10); (0.3, nan)]
        (Script.solver [0] 1e10 0 [], fresh_thread steady_conf)
      = Ok (solver', fresh_thread steady_conf))
  /\ SolverThread.updateProgress RefLibm.libm
       (Script.solver [0; 0.5] nan 0.5 []) (converging_thread 0.5)
     = Ok (set_progress nan (Script.solver [0; 0.5] nan 0.5 []), converging_thread 0.5).
Proof.
  split.
  - apply (proj1 (nan_error_metric (list Script.obs) RefLibm.libm
                    (Script.solver [0] 1e10 0 []) (fresh_thread steady_conf)
                    "Q"%string eq_refl) eq_refl eq_refl).
    apply Forall_cons; [left; reflexivity|].
    apply Forall_cons; [right; reflexivity|].
    apply Forall_cons; [left; reflexivity|].
    apply Forall_nil.
  - apply (proj2 (nan_error_metric (list Script.obs) RefLibm.libm
                    (Script.solver [0; 0.5] nan 0.5 []) (converging_thread 0.5)
                    "Q"%string eq_refl) ltac:(discriminate) RefLibm_C99 0.5
                 eq_refl eq_refl eq_refl).
Defined.

(** ** When run() returns *)

Section ReturnFacts.
Context {Core : Type}.
Variable m : Libm.
Variable step : FlameSolver.t Core -> FlameSolver.t Core * bool.

Local Abbreviation state := (Worker.state (Core := Core)).

Lemma next_unstopped (st : state) : unstopped st -> unstopped (Worker.next m step st).
Proof.
  destruct st as [solver w]. unfold unstopped, Worker.next. simpl.
  destruct (Worker.at_ w) eqn:E; simpl.
  - intros [Hs Hd]. rewrite Hs. simpl.
    destruct (Worker.done w) eqn:Ed; simpl; rewrite ?Ed; auto.
  - intros Hs. destruct (step solver). simpl. exact Hs.
  - auto.
  - intros Hs. destruct (Worker.i w mod 5 =? 0)%Z; simpl; [|exact Hs].
    destruct (SolverThread.updateProgress m solver (Worker.self w)) as [[s' th]|e] eqn:Eu;
      simpl; [|exact I].
    rewrite (updateProgress_keeps_stop m _ _ _ _ Eu). exact Hs.
  - intros Hs. destruct (Worker.done w) eqn:Ed; simpl; rewrite ?Ed; split; auto.
    discriminate.
  - intros [Hs [Hd Hp]]. auto.
  - rewrite E. auto.
  - rewrite E. auto.
Qed.

Lemma perform_leaving (mv : Worker.move) (st : state) :
  leaving st -> leaving (Worker.perform m step mv st).
Proof.
  destruct mv; simpl; [|destruct st as [solver w]; unfold leaving; simpl;
                        destruct (Worker.at_ w); auto].
  destruct st as [solver w]. unfold leaving, Worker.next. simpl.
  destruct (Worker.at_ w) eqn:E; simpl.
  - intros H.
    destruct (negb (SolverThread._stop (Worker.self w)) && negb (Worker.done w));
      simpl; auto.
  - intros _. destruct (step solver). simpl. exact I.
  - auto.
  - intros _. destruct (Worker.i w mod 5 =? 0)%Z; simpl; [|exact I].
    destruct (SolverThread.updateProgress m solver (Worker.self w)) as [[s' th]|e];
      simpl; exact I.
  - intros _. destruct (Worker.done w) eqn:Ed; simpl; rewrite ?Ed; auto. discriminate.
  - auto.
  - rewrite E. auto.
  - rewrite E. auto.
Qed.

End ReturnFacts.

(** A run that nobody stops returns only after [solver.step()] has
    reported completion, and then with [progress] exactly 1.0 and the
    stop flag set.  With [stop()] calls interleaved, a run that returns
    after completion was reported still leaves [progress] at 1.0. *)
Theorem run_returns_after_done
  (Core : Type) (m : Libm) (step : FlameSolver.t Core -> FlameSolver.t Core * bool)
  (solver : FlameSolver.t Core) (th : SolverThread.t) :
  (SolverThread._stop th = false ->
   forall n : nat,
     Worker.at_ (snd (Worker.run_for m step n (solver, Worker.start th))) = Worker.Finished ->
     Worker.done (snd (Worker.run_for m step n (solver, Worker.start th))) = true
     /\ progress (fst (Worker.run_for m step n (solver, Worker.start th))) = 1
     /\ SolverThread._stop
          (Worker.self (snd (Worker.run_for m step n (solver, Worker.start th)))) = true)
  /\ (forall sched : list Worker.move,
         Worker.at_ (snd (Worker.exec m step sched (solver, Worker.start th)))
         = Worker.Finished ->
         Worker.done (snd (Worker.exec m step sched (solver, Worker.start th))) = true ->
         progress (fst (Worker.exec m step sched (solver, Worker.start th))) = 1).
Proof.
  split.
  - intros Hs n.
    assert (H : forall st : Worker.state,
               unstopped st -> unstopped (Worker.run_for m step n st)).
    { induction n as [|n IH]; intros st Hu; simpl; [exact Hu|].
      apply IH. now apply next_unstopped. }
    specialize (H (solver, Worker.start th)).
    unfold unstopped at 1 in H. simpl in H. specialize (H (conj Hs (fun e => match Bool.diff_false_true e with end))).
    intros Hf. unfold unstopped in H. rewrite Hf in H. tauto.
  - intros sched.
    assert (H : forall st : Worker.state,
               leaving st -> leaving (Worker.exec m step sched st)).
    { induction sched as [|mv sched IH]; intros st Hl; simpl; [exact Hl|].
      apply IH. now apply perform_leaving. }
    specialize (H (solver, Worker.start th)).
    unfold leaving at 1 in H. simpl in H.
    specialize (H (fun e => match Bool.diff_false_true e with end)).
    intros Hf Hd. unfold leaving in H. rewrite Hf in H. auto.
Qed.

Lemma run_returns_after_done_witness :
  Worker.done (snd (Worker.run_for RefLibm.libm Script.step 102 fixed_end_start)) = true
  /\ progress (fst (Worker.run_for RefLibm.libm Script.step 102 fixed_end_start)) = 1
  /\ SolverThread._stop
       (Worker.self (snd (Worker.run_for RefLibm.libm Script.step 102 fixed_end_start)))
     = true.
Proof.
  apply (proj1 (run_returns_after_done (list Script.obs) RefLibm.libm Script.step
                  (fst (SolverThread.__init__
                          (Script.solver [] 1e10 0 fixed_end_script) fixed_conf))
                  (fresh_thread fixed_conf))
               eq_refl 102%nat).
  vm_compute. reflexivity.
Defined.

(** ** The widget under any sequence of events *)

Section GuiFacts.
Context {Core : Type}.
Variable m : Libm.
Variable step : FlameSolver.t Core -> FlameSolver.t Core * bool.
Variable validate : Config.t -> bool.
Variable setup : Config.t -> Config.t.
Variable new_solver : Config.t -> FlameSolver.t Core.
Variable initialize : FlameSolver.t Core -> FlameSolver.t Core.

Local Abbreviation run := (SolverWidget.run validate setup new_solver initialize).
Local Abbreviation pause := (SolverWidget.pause validate setup new_solver initialize).
Local Abbreviation handle := (Gui.handle m step validate setup new_solver initialize).
Local Abbreviation play := (Gui.play m step validate setup new_solver initialize).
Local Abbreviation consistent := (Gui.consistent (Core := Core)).

Lemma count_snoc_other (c : SolverWidget.call) (l extra : list SolverWidget.call) :
  SolverWidget.count c extra = 0%nat ->
  SolverWidget.count c (l ++ extra) = SolverWidget.count c l.
Proof. intros H. rewrite count_app, H. lia. Qed.

Lemma run_consistent (w w1 : SolverWidget.t Core) :
  consistent w -> run w = Ok w1 -> consistent w1.
Proof.
  intros Hc. destruct (SolverWidget.active w) eqn:Ha.
  - unfold SolverWidget.run. rewrite Ha. intros H; injection H as <-. exact Hc.
  - intros H.
    destruct (run_inactive validate setup new_solver initialize w w1 Ha H)
      as [w0 [s [H0 [Hs ->]]]].
    unfold Gui.consistent. simpl.
    unfold SolverWidget.ensure_solver in H0. unfold Gui.consistent in Hc.
    destruct (SolverWidget.solver w) eqn:Es.
    + injection H0 as <-. destruct (SolverWidget.solverThread w); [|contradiction].
      rewrite count_snoc_other by reflexivity. exact Hc.
    + destruct (validate (SolverWidget.conf w)); [|discriminate].
      injection H0 as <-. simpl.
      destruct (SolverWidget.solverThread w); [contradiction|].
      rewrite count_snoc_other by reflexivity.
      rewrite count_app, Hc. reflexivity.
Qed.

Lemma run_raise (w : SolverWidget.t Core) (e : exn) :
  run w = Raise e ->
  e = ConfigValidationError
  /\ SolverWidget.solver w = None
  /\ validate (SolverWidget.conf w) = false.
Proof.
  unfold SolverWidget.run, SolverWidget.ensure_solver.
  destruct (SolverWidget.active w); [discriminate|].
  destruct (SolverWidget.solver w) eqn:Es; simpl.
  - rewrite Es. simpl. discriminate.
  - destruct (validate (SolverWidget.conf w)); simpl.
    + discriminate.
    + intros H; injection H as <-. auto.
Qed.

Lemma set_pause_text_consistent (txt : string) (w : SolverWidget.t Core) :
  consistent w -> consistent (SolverWidget.set_pause_text txt w).
Proof. unfold Gui.consistent. simpl. auto. Qed.

Lemma stop_thread_consistent (w : SolverWidget.t Core) :
  consistent w -> consistent (SolverWidget.stop_thread w).
Proof.
  unfold Gui.consistent. simpl.
  destruct (SolverWidget.solver w), (SolverWidget.solverThread w); simpl; try tauto;
    intros H; rewrite count_snoc_other by reflexivity; exact H.
Qed.

Lemma pause_returns (w : SolverWidget.t Core) :
  consistent w -> exists w1, pause w = Ok w1 /\ consistent w1.
Proof.
  intros Hc. unfold SolverWidget.pause.
  destruct (SolverWidget.solverThread w) as [th|] eqn:Et; [|eauto].
  destruct (Worker.is_alive th); simpl.
  - eexists. split; [reflexivity|].
    apply stop_thread_consistent. now apply set_pause_text_consistent.
  - destruct (run (SolverWidget.set_pause_text "Pause" w)) as [w1|e] eqn:Er; simpl.
    + eexists. split; [reflexivity|].
      pose proof (run_consistent _ _ (set_pause_text_consistent "Pause" w Hc) Er) as H1.
      unfold Gui.consistent in *. simpl.
      destruct (SolverWidget.solver w1), (SolverWidget.solverThread w1); try tauto;
        rewrite count_snoc_other by reflexivity; exact H1.
    + exfalso. destruct (run_raise _ _ Er) as [_ [Hs _]]. simpl in Hs.
      unfold Gui.consistent in Hc. rewrite Hs, Et in Hc. exact Hc.
Qed.

Lemma updateStatus_returns (w : SolverWidget.t Core) :
  consistent w ->
  exists w1 v, Gui.updateStatus w = Ok (w1, v) /\ consistent w1.
Proof.
  destruct w as [cf so st ti pb lg]. unfold Gui.updateStatus, Gui.consistent. simpl.
  destruct so as [s|], st as [th|]; simpl; try contradiction; intros Hc.
  - do 2 eexists. split; [reflexivity|].
    destruct (negb (Worker.is_alive th)); simpl; [|exact Hc].
    rewrite count_snoc_other by reflexivity. exact Hc.
  - do 2 eexists. split; [reflexivity|]. exact Hc.
Qed.

Lemma worker_move_some (w : SolverWidget.t Core) (s : FlameSolver.t Core) (th : Worker.t) :
  SolverWidget.solver w = Some s ->
  SolverWidget.solverThread w = Some th ->
  SolverWidget.worker_move m step w
  = {| SolverWidget.conf := SolverWidget.conf w;
       SolverWidget.solver := Some (fst (Worker.next m step (s, th)));
       SolverWidget.solverThread := Some (snd (Worker.next m step (s, th)));
       SolverWidget.updateTimer := SolverWidget.updateTimer w;
       SolverWidget.pauseButton := SolverWidget.pauseButton w;
       SolverWidget.log := SolverWidget.log w |}.
Proof.
  intros Hs Ht. unfold SolverWidget.worker_move. rewrite Hs, Ht.
  destruct (Worker.next m step (s, th)). reflexivity.
Qed.

Lemma worker_move_none (w : SolverWidget.t Core) :
  SolverWidget.solver w = None \/ SolverWidget.solverThread w = None ->
  SolverWidget.worker_move m step w = w.
Proof.
  unfold SolverWidget.worker_move. intros [H|H]; rewrite H; [reflexivity|].
  destruct (SolverWidget.solver w); reflexivity.
Qed.

Lemma handle_consistent (e : Gui.event) (w : SolverWidget.t Core) :
  consistent w -> consistent (handle e w).
Proof.
  intros Hc. destruct e; simpl.
  - destruct (run w) as [w1|x] eqn:Er; simpl; [|exact Hc].
    exact (run_consistent _ _ Hc Er).
  - destruct (pause_returns w Hc) as [w1 [-> H1]]. exact H1.
  - unfold SolverWidget.stop. destruct (SolverWidget.solverThread w) eqn:Et; [|exact Hc].
    now apply stop_thread_consistent.
  - destruct (SolverWidget.updateTimer w); [|exact Hc].
    destruct (updateStatus_returns w Hc) as [w1 [v [-> H1]]]. exact H1.
  - destruct (SolverWidget.solver w) as [s|] eqn:Es;
      [destruct (SolverWidget.solverThread w) as [th|] eqn:Et|].
    + rewrite (worker_move_some w s th Es Et).
      unfold Gui.consistent in *.
      cbn [SolverWidget.solver SolverWidget.solverThread SolverWidget.log].
      rewrite Es, Et in Hc. exact Hc.
    + rewrite worker_move_none by auto. exact Hc.
    + rewrite worker_move_none by auto. exact Hc.
Qed.

Lemma play_consistent (es : list Gui.event) (w : SolverWidget.t Core) :
  consistent w -> consistent (play es w).
Proof.
  revert w. induction es as [|e es IH]; intros w Hc; simpl; [exact Hc|].
  apply IH. now apply handle_consistent.
Qed.

(** Worker actions, seen from the widget, are the worker's own run. *)
Lemma play_worker_actions (n : nat) (w : SolverWidget.t Core)
      (s : FlameSolver.t Core) (th : Worker.t) :
  SolverWidget.solver w = Some s ->
  SolverWidget.solverThread w = Some th ->
  play (repeat Gui.WorkerAction n) w
  = {| SolverWidget.conf := SolverWidget.conf w;
       SolverWidget.solver := Some (fst (Worker.run_for m step n (s, th)));
       SolverWidget.solverThread := Some (snd (Worker.run_for m step n (s, th)));
       SolverWidget.updateTimer := SolverWidget.updateTimer w;
       SolverWidget.pauseButton := SolverWidget.pauseButton w;
       SolverWidget.log := SolverWidget.log w |}.
Proof.
  revert w s th. induction n as [|n IH]; intros w s th Hs Ht.
  - destruct w. simpl in *. subst. reflexivity.
  - cbn [repeat Gui.play Gui.handle Worker.run_for].
    rewrite (worker_move_some w s th Hs Ht).
    erewrite IH; [|reflexivity|reflexivity].
    rewrite <- surjective_pairing. reflexivity.
Qed.

End GuiFacts.


(** Until Start has been pressed with a configuration that validates,
    nothing happens: the other buttons, the timer and the (absent)
    worker leave the new widget as it is, and so does a Start whose
    validation fails. *)
Theorem nothing_before_start
  (Core : Type) (m : Libm) (step : FlameSolver.t Core -> FlameSolver.t Core * bool)
  (validate : Config.t -> bool) (setup : Config.t -> Config.t)
  (new_solver : Config.t -> FlameSolver.t Core)
  (initialize : FlameSolver.t Core -> FlameSolver.t Core)
  (c : Config.t) (es : list Gui.event) :
  validate c = false \/ forallb (fun e => negb (Gui.is_start e)) es = true ->
  Gui.play m step validate setup new_solver initialize es (Gui.__init__ c)
  = Gui.__init__ c.
Proof.
  intros H. induction es as [|e es IH]; simpl; [reflexivity|].
  assert (He : Gui.handle m step validate setup new_solver initialize e (Gui.__init__ c)
               = Gui.__init__ c).
  { destruct e; try reflexivity.
    destruct H as [H|H]; [|simpl in H; discriminate].
    simpl. unfold SolverWidget.run, SolverWidget.ensure_solver. simpl.
    rewrite H. reflexivity. }
  rewrite He. apply IH.
  destruct H as [H|H]; [left; exact H|right].
  simpl in H. apply andb_true_iff in H. tauto.
Qed.

Lemma nothing_before_start_witness :
  Gui.play RefLibm.libm Script.step (fun _ => true) (fun c => c)
    (fun _ => Script.solver [] 1e10 0 []) (fun s => s)
    [Gui.PausePressed; Gui.StopPressed; Gui.TimerTimeout; Gui.WorkerAction;
     Gui.PausePressed]
    (Gui.__init__ steady_conf)
  = Gui.__init__ steady_conf.
Proof.
  apply (nothing_before_start (list Script.obs) RefLibm.libm Script.step
           (fun _ => true) (fun c => c) (fun _ => Script.solver [] 1e10 0 [])
           (fun s => s) steady_conf).
  right. reflexivity.
Defined.


(** [updateStatus] only reads the solver and the thread.  With no solver
    it does nothing at all; otherwise it hands [1000 * progress] to the
    progress bar and stops the timer exactly when the worker is no
    longer alive, after which further timeouts change nothing.  So the
    poll that follows a completed run shows 1000 and is the last. *)
Theorem updateStatus_poll
  (Core : Type) (m : Libm) (step : FlameSolver.t Core -> FlameSolver.t Core * bool)
  (validate : Config.t -> bool) (setup : Config.t -> Config.t)
  (new_solver : Config.t -> FlameSolver.t Core)
  (initialize : FlameSolver.t Core -> FlameSolver.t Core)
  (w : SolverWidget.t Core) :
  (SolverWidget.solver w = None -> Gui.updateStatus w = Ok (w, None))
  /\ (forall (s : FlameSolver.t Core) (th : Worker.t),
         SolverWidget.solver w = Some s ->
         SolverWidget.solverThread w = Some th ->
         exists w',
           Gui.updateStatus w = Ok (w', Some (1000 * progress s))
           /\ SolverWidget.solver w' = Some s
           /\ SolverWidget.solverThread w' = Some th
           /\ SolverWidget.conf w' = SolverWidget.conf w
           /\ SolverWidget.pauseButton w' = SolverWidget.pauseButton w
           /\ SolverWidget.updateTimer w'
              = (SolverWidget.updateTimer w && Worker.is_alive th)%bool
           /\ (Worker.is_alive th = false ->
               forall n : nat,
                 Gui.play m step validate setup new_solver initialize
                   (repeat Gui.TimerTimeout n) w' = w')
           /\ (progress s = 1 -> 1000 * progress s = 1000)).
Proof.
  split.
  - intros Hs. unfold Gui.updateStatus. rewrite Hs. reflexivity.
  - intros s th Hs Ht. unfold Gui.updateStatus. rewrite Hs, Ht. simpl.
    eexists. split; [reflexivity|].
    destruct (Worker.is_alive th) eqn:Ea; simpl.
    + rewrite Hs, Ht, andb_true_r. repeat split; try discriminate.
      intros ->. reflexivity.
    + rewrite andb_false_r. repeat split.
      * intros _ n. induction n as [|n IH]; simpl; [reflexivity | exact IH].
      * intros ->. reflexivity.
Qed.

Lemma updateStatus_poll_witness :
  exists w',
    Gui.updateStatus
      {| SolverWidget.conf := fixed_conf;
         SolverWidget.solver :=
           Some (fst (Worker.run_for RefLibm.libm Script.step 102 fixed_end_start));
         SolverWidget.solverThread :=
           Some (snd (Worker.run_for RefLibm.libm Script.step 102 fixed_end_start));
         SolverWidget.updateTimer := true;
         SolverWidget.pauseButton := "Pause";
         SolverWidget.log := [] |}
    = Ok (w', Some 1000)
    /\ SolverWidget.updateTimer w' = false.
Proof.
  destruct (proj2 (updateStatus_poll (list Script.obs) RefLibm.libm Script.step
                     (fun _ => true) (fun c => c) (fun _ => Script.solver [] 1e10 0 [])
                     (fun s => s)
                     {| SolverWidget.conf := fixed_conf;
                        SolverWidget.solver :=
                          Some (fst (Worker.run_for RefLibm.libm Script.step 102
                                       fixed_end_start));
                        SolverWidget.solverThread :=
                          Some (snd (Worker.run_for RefLibm.libm Script.step 102
                                       fixed_end_start));
                        SolverWidget.updateTimer := true;
                        SolverWidget.pauseButton := "Pause";
                        SolverWidget.log := [] |})
                  _ _ eq_refl eq_refl) as [w' [H1 [_ [_ [_ [_ [H2 _]]]]]]].
  exists w'. split; [exact H1 | exact H2].
Defined.

Section ResumeFacts.
Context {Core : Type}.
Variable validate : Config.t -> bool.
Variable setup : Config.t -> Config.t.
Variable new_solver : Config.t -> FlameSolver.t Core.
Variable initialize : FlameSolver.t Core -> FlameSolver.t Core.

(** [run] on a widget that has a solver and a worker that has ended. *)
Lemma run_dead (v : SolverWidget.t Core) (s : FlameSolver.t Core) (th : Worker.t) :
  SolverWidget.solver v = Some s ->
  SolverWidget.solverThread v = Some th ->
  Worker.is_alive th = false ->
  SolverWidget.run validate setup new_solver initialize v
  = Ok {| SolverWidget.conf := SolverWidget.conf v;
          SolverWidget.solver := Some (set_progress 0 s);
          SolverWidget.solverThread :=
            Some (Worker.start (snd (SolverThread.__init__ s (SolverWidget.conf v))));
          SolverWidget.updateTimer := true;
          SolverWidget.pauseButton := SolverWidget.pauseButton v;
          SolverWidget.log :=
            SolverWidget.log v
            ++ [SolverWidget.NewSolverThread; SolverWidget.ThreadStart;
                SolverWidget.TimerStart] |}.
Proof.
  intros Hs Ht Hd.
  unfold SolverWidget.run, SolverWidget.active, SolverWidget.ensure_solver.
  rewrite Ht, Hd, Hs. simpl. rewrite Hs. reflexivity.
Qed.

Lemma pause_dead (v : SolverWidget.t Core) (s : FlameSolver.t Core) (th : Worker.t) :
  SolverWidget.solver v = Some s ->
  SolverWidget.solverThread v = Some th ->
  Worker.is_alive th = false ->
  SolverWidget.pause validate setup new_solver initialize v
  = Ok {| SolverWidget.conf := SolverWidget.conf v;
          SolverWidget.solver := Some (set_progress 0 s);
          SolverWidget.solverThread :=
            Some (Worker.start (snd (SolverThread.__init__ s (SolverWidget.conf v))));
          SolverWidget.updateTimer := true;
          SolverWidget.pauseButton := "Pause";
          SolverWidget.log :=
            SolverWidget.log v
            ++ [SolverWidget.NewSolverThread; SolverWidget.ThreadStart;
                SolverWidget.TimerStart; SolverWidget.TimerStart] |}.
Proof.
  intros Hs Ht Hd. unfold SolverWidget.pause. rewrite Ht, Hd. simpl.
  rewrite (run_dead (SolverWidget.set_pause_text "Pause" v) s th Hs Ht Hd). simpl.
  unfold SolverWidget.start_timer. simpl. rewrite <- app_assoc. reflexivity.
Qed.

Lemma pause_alive (v : SolverWidget.t Core) (th : Worker.t) :
  SolverWidget.solverThread v = Some th ->
  Worker.is_alive th = true ->
  SolverWidget.pause validate setup new_solver initialize v
  = Ok (SolverWidget.stop_thread (SolverWidget.set_pause_text "Continue" v)).
Proof. intros Ht Ha. unfold SolverWidget.pause. rewrite Ht, Ha. reflexivity. Qed.

End ResumeFacts.

Lemma play_app {Core : Type} (m : Libm)
      (step : FlameSolver.t Core -> FlameSolver.t Core * bool)
      (validate : Config.t -> bool) (setup : Config.t -> Config.t)
      (new_solver : Config.t -> FlameSolver.t Core)
      (initialize : FlameSolver.t Core -> FlameSolver.t Core)
      (es1 es2 : list Gui.event) (v : SolverWidget.t Core) :
  Gui.play m step validate setup new_solver initialize (es1 ++ es2) v
  = Gui.play m step validate setup new_solver initialize es2
      (Gui.play m step validate setup new_solver initialize es1 v).
Proof. revert v. induction es1 as [|e l IH]; intros v; simpl; [reflexivity | apply IH]. Qed.



(** ** The option widgets *)

Section EnumFacts.
Import OptionWidgets.
Context {A : Type}.
Variable eqb : A -> A -> bool.
Variable str : A -> string.

Lemma existsb_false_nth (f : A -> bool) (cs : list A) (j : nat) (c : A) :
  existsb f cs = false -> nth_error cs j = Some c -> f c = false.
Proof.
  revert j. induction cs as [|x cs IH]; intros j H Hn.
  - destruct j; discriminate.
  - simpl in H. apply orb_false_iff in H. destruct H as [Hx Hr].
    destruct j; simpl in Hn; [injection Hn as <-; exact Hx | eapply IH; eassumption].
Qed.

Lemma enum_loop_startIndex (v : A) (cs : list A) (i : Z) (st : enum_locals) :
  (existsb (fun c => eqb c v) cs = false ->
   startIndex (enum_loop eqb str v i cs st) = startIndex st)
  /\ (existsb (fun c => eqb c v) cs = true ->
      exists (k : nat) (c : A),
        startIndex (enum_loop eqb str v i cs st) = Some (i + Z.of_nat k)%Z
        /\ nth_error cs k = Some c
        /\ eqb c v = true
        /\ forall (j : nat) (c' : A),
             (k < j)%nat -> nth_error cs j = Some c' -> eqb c' v = false).
Proof.
  revert i st. induction cs as [|x cs IH]; intros i st; simpl.
  - split; [reflexivity | discriminate].
  - destruct (IH (i + 1)%Z
                {| startIndex := if eqb x v then Some i else startIndex st;
                   entries := entries st ++ [str x];
                   table := dict_set i x (table st) |}) as [IHn IHy].
    destruct (existsb (fun c => eqb c v) cs) eqn:Er.
    + split; [rewrite orb_true_r; discriminate|]. intros _.
      destruct (IHy eq_refl) as [k [c [Hs [Hn [Hc Hl]]]]].
      exists (S k), c. rewrite Hs. repeat split; auto.
      * f_equal. lia.
      * intros j c' Hj Hnj. destruct j; [lia|]. simpl in Hnj.
        apply (Hl j c'); [lia | exact Hnj].
    + rewrite orb_false_r. rewrite (IHn eq_refl). simpl.
      destruct (eqb x v) eqn:Ex; split; try discriminate; try reflexivity.
      intros _. exists O, x. repeat split; auto.
      * f_equal. lia.
      * intros j c' Hj Hnj. destruct j; [lia|]. simpl in Hnj.
        exact (existsb_false_nth _ cs j c' Er Hnj).
Qed.

Lemma enum_loop_entries (v : A) (cs : list A) (i : Z) (st : enum_locals) :
  entries (enum_loop eqb str v i cs st) = entries st ++ map str cs.
Proof.
  revert i st. induction cs as [|x cs IH]; intros i st; simpl.
  - now rewrite app_nil_r.
  - rewrite IH. simpl. now rewrite <- app_assoc.
Qed.

Lemma enum_loop_table (v : A) (cs : list A) (i : Z) (st : enum_locals) (z : Z) :
  dict_get z (table (enum_loop eqb str v i cs st))
  = if ((i <=? z) && (z <? i + Z.of_nat (List.length cs)))%Z
    then nth_error cs (Z.to_nat (z - i))
    else dict_get z (table st).
Proof.
  revert i st. induction cs as [|x cs IH]; intros i st.
  - simpl. destruct (Z.leb_spec i z), (Z.ltb_spec z (i + 0)); simpl;
      try reflexivity; lia.
  - cbn [enum_loop]. rewrite IH. cbn [table dict_set dict_get List.length].
    destruct (Z.leb_spec (i + 1) z), (Z.leb_spec i z),
             (Z.ltb_spec z (i + 1 + Z.of_nat (List.length cs))),
             (Z.ltb_spec z (i + Z.of_nat (S (List.length cs)))),
             (Z.eqb_spec i z); cbn [andb]; try lia; try reflexivity.
    + replace (Z.to_nat (z - i)) with (S (Z.to_nat (z - (i + 1)))) by lia.
      reflexivity.
    + replace (z - i)%Z with 0%Z by lia. reflexivity.
Qed.

(** What a successful construction leaves in the widget. *)
Lemma EnumOptionWidget_init_returns (name : string) (o : Opt) (cs : list A)
      (w : EnumOptionWidget) :
  choices o = Some cs ->
  EnumOptionWidget_init eqb str name o = Returns w ->
  base w = OptionWidget_init name o
  /\ combo w = map str cs
  /\ (forall z : Z,
         dict_get z (items w)
         = if ((0 <=? z) && (z <? Z.of_nat (List.length cs)))%Z
           then nth_error cs (Z.to_nat z) else None)
  /\ startIndex (enum_loop eqb str (value o) 0 cs
                   {| startIndex := None; entries := []; table := [] |})
     = Some (currentIndex w).
Proof.
  intros Hc. unfold EnumOptionWidget_init. rewrite Hc.
  destruct (startIndex (enum_loop eqb str (value o) 0 cs _)) as [k|] eqn:Es;
    [|discriminate].
  intros H; injection H as <-. simpl. repeat split.
  - apply enum_loop_entries.
  - intros z. rewrite enum_loop_table. simpl.
    replace (z - 0)%Z with z by lia. reflexivity.
Qed.

End EnumFacts.

(** [EnumOptionWidget.__init__] selects the last choice that equals the
    option's value, and raises [UnboundLocalError] exactly when no
    choice does (an empty list of choices included).  On success the
    combo box lists [str] of every choice in order and [items] maps each
    index to its choice and nothing else. *)
Theorem EnumOptionWidget_init_start
  (A : Type) (eqb : A -> A -> bool) (str : A -> string)
  (name : string) (o : OptionWidgets.Opt) (cs : list A) :
  OptionWidgets.choices o = Some cs ->
  (existsb (fun c => eqb c (OptionWidgets.value o)) cs = false
   <-> OptionWidgets.EnumOptionWidget_init eqb str name o
       = OptionWidgets.Raises OptionWidgets.UnboundLocalError)
  /\ (forall w : OptionWidgets.EnumOptionWidget,
         OptionWidgets.EnumOptionWidget_init eqb str name o = OptionWidgets.Returns w ->
         (exists (k : nat) (c : A),
             OptionWidgets.currentIndex w = Z.of_nat k
             /\ nth_error cs k = Some c
             /\ eqb c (OptionWidgets.value o) = true
             /\ forall (j : nat) (c' : A),
                  (k < j)%nat -> nth_error cs j = Some c' ->
                  eqb c' (OptionWidgets.value o) = false)
         /\ OptionWidgets.combo w = map str cs
         /\ (forall j : nat,
                OptionWidgets.dict_get (Z.of_nat j) (OptionWidgets.items w)
                = nth_error cs j)
         /\ (forall z : Z,
                (z < 0 \/ Z.of_nat (List.length cs) <= z)%Z ->
                OptionWidgets.dict_get z (OptionWidgets.items w) = None)).
Proof.
  intros Hc.
  destruct (enum_loop_startIndex eqb str (OptionWidgets.value o) cs 0
              {| OptionWidgets.startIndex := None; OptionWidgets.entries := [];
                 OptionWidgets.table := [] |}) as [Hno Hyes].
  split.
  - unfold OptionWidgets.EnumOptionWidget_init. rewrite Hc.
    destruct (existsb (fun c => eqb c (OptionWidgets.value o)) cs) eqn:Ex.
    + destruct (Hyes eq_refl) as [k [c [Hs _]]]. rewrite Hs.
      split; discriminate.
    + rewrite (Hno eq_refl). simpl. split; reflexivity.
  - intros w Hw.
    destruct (EnumOptionWidget_init_returns eqb str name o cs w Hc Hw)
      as [Hb [Hcombo [Hitems Hstart]]].
    split; [|split; [exact Hcombo | split]].
    + destruct (existsb (fun c => eqb c (OptionWidgets.value o)) cs) eqn:Ex.
      * destruct (Hyes eq_refl) as [k [c [Hs H]]]. exists k, c.
        rewrite Hs in Hstart. injection Hstart as <-. split; [lia | exact H].
      * rewrite (Hno eq_refl) in Hstart. discriminate.
    + intros j. rewrite Hitems.
      destruct (Nat.lt_ge_cases j (List.length cs)) as [Hlt|Hge].
      * replace ((0 <=? Z.of_nat j) && (Z.of_nat j <? Z.of_nat (List.length cs)))%Z
          with true by lia.
        now rewrite Nat2Z.id.
      * replace ((0 <=? Z.of_nat j) && (Z.of_nat j <? Z.of_nat (List.length cs)))%Z
          with false by lia.
        symmetry. now apply nth_error_None.
    + intros z Hz. rewrite Hitems.
      replace ((0 <=? z) && (z <? Z.of_nat (List.length cs)))%Z with false by lia.
      reflexivity.
Qed.

Section OptionsFacts.
Import OptionWidgets.
Context {A : Type}.
Variable eqb : A -> A -> bool.
Variable str : A -> string.
Variable label_width : string -> Z.

(** The value of an option with choices is one of them. *)
Local Abbreviation listed o :=
  (match choices o with
   | Some cs => existsb (fun c => eqb c (value o)) cs = true
   | None => True
   end).

Lemma EnumOptionWidget_init_cases (name : string) (o : Opt) (cs : list A) :
  choices o = Some cs ->
  (existsb (fun c => eqb c (value o)) cs = true
   /\ exists w, EnumOptionWidget_init eqb str name o = Returns w)
  \/ (existsb (fun c => eqb c (value o)) cs = false
      /\ EnumOptionWidget_init eqb str name o = Raises UnboundLocalError).
Proof.
  intros Hc. unfold EnumOptionWidget_init. rewrite Hc.
  destruct (enum_loop_startIndex eqb str (value o) cs 0
              {| startIndex := None; entries := []; table := [] |}) as [Hno Hyes].
  destruct (existsb (fun c => eqb c (value o)) cs) eqn:Ex.
  - left. split; [reflexivity|].
    destruct (Hyes eq_refl) as [k [c [Hs _]]]. rewrite Hs. eauto.
  - right. split; [reflexivity|]. rewrite (Hno eq_refl). reflexivity.
Qed.

Lemma make_field_returns (name : string) (o : Opt) :
  (exists f, make_field eqb str name o = Returns f) <-> listed o.
Proof.
  unfold make_field. destruct (choices o) as [cs|] eqn:Hc.
  - destruct (EnumOptionWidget_init_cases name o cs Hc) as [[Hx [w Hw]]|[Hx Hw]];
      rewrite Hw, Hx.
    + split; eauto.
    + split; [intros [f Hf]; discriminate | discriminate].
  - split; [trivial|]. intros _.
    destruct (is_string o), (is_integer o), (is_float o), (is_bool o); eauto.
Qed.

Lemma make_field_raises (name : string) (o : Opt) (e : raised) :
  make_field eqb str name o = Raises e <-> e = UnboundLocalError /\ ~ listed o.
Proof.
  unfold make_field. destruct (choices o) as [cs|] eqn:Hc.
  - destruct (EnumOptionWidget_init_cases name o cs Hc) as [[Hx [w Hw]]|[Hx Hw]];
      rewrite Hw, Hx.
    + split; [discriminate | intros [_ H]; now elim H].
    + split; [intros H; injection H as <-; split; [reflexivity | discriminate]
             | intros [-> _]; reflexivity].
  - split; [|intros [_ H]; now elim H].
    destruct (is_string o), (is_integer o), (is_float o), (is_bool o); discriminate.
Qed.

Lemma options_loop_returns (opts : list (string * Opt)) (i : Z)
      (st st' : options_locals) :
  options_loop eqb str label_width i opts st = Returns st' ->
  exists L : list (Z * string * field),
    grid st' = grid st ++ L
    /\ List.length L = List.length opts
    /\ (forall (j : nat) (name : string) (o : Opt),
           nth_error opts j = Some (name, o) ->
           exists f, nth_error L j = Some ((i + Z.of_nat j)%Z, name, f)
                     /\ make_field eqb str name o = Returns f)
    /\ i_ st' = match opts with
                | [] => i_ st
                | _ :: _ => Some (i + Z.of_nat (List.length opts) - 1)%Z
                end
    /\ (width st <= width st')%Z
    /\ (forall (name : string) (o : Opt),
           In (name, o) opts -> (label_width name <= width st')%Z)
    /\ (width st' = width st
        \/ exists (name : string) (o : Opt),
             In (name, o) opts /\ width st' = label_width name).
Proof.
  revert i st. induction opts as [|[name o] opts IH]; intros i st H.
  - simpl in H. injection H as <-. exists []. rewrite app_nil_r.
    repeat split; auto; try lia.
    + intros j name o Hn. destruct j; discriminate.
    + intros name o [].
  - cbn [options_loop] in H.
    destruct (make_field eqb str name o) as [f|e] eqn:Hf; [|discriminate].
    apply IH in H. cbn [grid width i_] in H.
    destruct H as [L [Hg [Hl [Hrows [Hi [Hw [Hall Hsome]]]]]]].
    exists ((i, name, f) :: L). repeat split.
    + rewrite Hg, <- app_assoc. reflexivity.
    + simpl. now rewrite Hl.
    + intros j name' o' Hn. destruct j; simpl in Hn.
      * injection Hn as <- <-. exists f. simpl.
        replace (i + 0)%Z with i by lia. auto.
      * destruct (Hrows j name' o' Hn) as [f' [Hn' Hf']]. exists f'. simpl.
        replace (i + Z.pos (Pos.of_succ_nat j))%Z with (i + 1 + Z.of_nat j)%Z by lia.
        auto.
    + rewrite Hi. destruct opts; simpl; f_equal; lia.
    + lia.
    + intros name' o' [Heq|Hin]; [injection Heq as <- <-; lia | eauto].
    + destruct Hsome as [Hs|[name' [o' [Hin Hs]]]].
      * rewrite Hs. destruct (Z.max_spec (label_width name) (width st)) as [[_ ->]|[_ ->]].
        -- now left.
        -- right. exists name, o. split; [now left | reflexivity].
      * right. exists name', o'. split; [now right | exact Hs].
Qed.

Lemma options_loop_raises (opts : list (string * Opt)) (i : Z)
      (st : options_locals) (e : raised) :
  options_loop eqb str label_width i opts st = Raises e <->
  exists (pre : list (string * Opt)) (name : string) (o : Opt)
         (post : list (string * Opt)),
    opts = pre ++ (name, o) :: post
    /\ Forall (fun no => listed (snd no)) pre
    /\ make_field eqb str name o = Raises e.
Proof.
  revert i st. induction opts as [|[name o] opts IH]; intros i st.
  - simpl. split; [discriminate|].
    intros [pre [name [o [post [H _]]]]]. destruct pre; discriminate.
  - cbn [options_loop].
    destruct (make_field eqb str name o) as [f|e'] eqn:Hf.
    + rewrite IH. split.
      * intros [pre [n' [o' [post [-> [Hpre Hr]]]]]].
        exists ((name, o) :: pre), n', o', post. repeat split; auto.
        constructor; [|exact Hpre]. apply (make_field_returns name o). eauto.
      * intros [pre [n' [o' [post [Heq [Hpre Hr]]]]]].
        destruct pre as [|p pre]; simpl in Heq.
        -- injection Heq as <- <- _. congruence.
        -- injection Heq as <- ->. inversion Hpre; subst.
           exists pre, n', o', post. auto.
    + split.
      * intros H. injection H as <-. exists [], name, o, opts. auto.
      * intros [pre [n' [o' [post [Heq [Hpre Hr]]]]]].
        destruct pre as [|p pre]; simpl in Heq.
        -- injection Heq as <- <- _. congruence.
        -- injection Heq as <- ->. inversion Hpre as [|x l Hx Hl]; subst.
           apply (make_field_returns name o) in Hx. destruct Hx as [f Hx].
           congruence.
Qed.

Lemma options_loop_cases (opts : list (string * Opt)) (i : Z) (st : options_locals) :
  (Forall (fun no => listed (snd no)) opts
   /\ exists st', options_loop eqb str label_width i opts st = Returns st')
  \/ (~ Forall (fun no => listed (snd no)) opts
      /\ options_loop eqb str label_width i opts st = Raises UnboundLocalError).
Proof.
  destruct (options_loop eqb str label_width i opts st) as [st'|e] eqn:H.
  - left. split; [|eauto]. apply options_loop_returns in H.
    destruct H as [L [_ [_ [Hrows _]]]].
    apply Forall_forall. intros [name o] Hin.
    apply In_nth_error in Hin. destruct Hin as [j Hj].
    destruct (Hrows j name o Hj) as [f [_ Hf]].
    apply (make_field_returns name o). eauto.
  - right. apply options_loop_raises in H.
    destruct H as [pre [name [o [post [-> [_ Hr]]]]]].
    apply make_field_raises in Hr. destruct Hr as [-> Hn].
    split; [|reflexivity]. intros Hall. apply Hn.
    rewrite Forall_forall in Hall.
    apply (Hall (name, o)). apply in_or_app. right. now left.
Qed.

Lemma OptionsWidget_init_cases (opts : list (string * Opt)) :
  (opts <> [] /\ Forall (fun no => listed (snd no)) opts
   /\ exists w, OptionsWidget_init eqb str label_width opts = Returns w)
  \/ ((opts = [] \/ ~ Forall (fun no => listed (snd no)) opts)
      /\ OptionsWidget_init eqb str label_width opts = Raises UnboundLocalError).
Proof.
  unfold OptionsWidget_init.
  destruct (options_loop_cases opts 0 {| i_ := None; width := 0; grid := [] |})
    as [[Hall [st' Hst]]|[Hn Hr]].
  - rewrite Hst. destruct (options_loop_returns _ _ _ _ Hst) as [L [_ [_ [_ [Hi _]]]]].
    rewrite Hi. destruct opts as [|p opts].
    + right. simpl. auto.
    + left. repeat split; [discriminate | exact Hall | eauto].
  - right. rewrite Hr. auto.
Qed.

End OptionsFacts.

(** [EnumOptionWidget.updateOpt] after a successful construction: with
    the index the constructor selected it stores a choice equal to the
    option's value; after entry [k] has been selected it stores choice
    [k], leaves default and choices alone and writes the name in italics
    exactly when the stored value differs from the default; with an
    index outside the choices ([-1] for no selection) it raises
    [KeyError]. *)
Theorem EnumOptionWidget_updateOpt_selected
  (A : Type) (eqb : A -> A -> bool) (str : A -> string)
  (name : string) (o : OptionWidgets.Opt) (cs : list A)
  (w : OptionWidgets.EnumOptionWidget) :
  OptionWidgets.choices o = Some cs ->
  OptionWidgets.EnumOptionWidget_init eqb str name o = OptionWidgets.Returns w ->
  (exists w', OptionWidgets.EnumOptionWidget_updateOpt eqb w = OptionWidgets.Returns w'
              /\ eqb (OptionWidgets.value (OptionWidgets.opt (OptionWidgets.base w')))
                     (OptionWidgets.value o) = true)
  /\ (forall (k : nat) (c : A),
         nth_error cs k = Some c ->
         exists w',
           OptionWidgets.EnumOptionWidget_updateOpt eqb
             (OptionWidgets.select (Z.of_nat k) w) = OptionWidgets.Returns w'
           /\ OptionWidgets.opt (OptionWidgets.base w') = OptionWidgets.set_value c o
           /\ OptionWidgets.label (OptionWidgets.base w')
              = (if eqb c (OptionWidgets.default o) then name
                 else "<i>" ++ name ++ "</i>")%string
           /\ OptionWidgets.optName (OptionWidgets.base w') = name
           /\ OptionWidgets.combo w' = map str cs
           /\ OptionWidgets.currentIndex w' = Z.of_nat k
           /\ OptionWidgets.items w' = OptionWidgets.items w)
  /\ (forall z : Z,
         (z < 0 \/ Z.of_nat (List.length cs) <= z)%Z ->
         OptionWidgets.EnumOptionWidget_updateOpt eqb (OptionWidgets.select z w)
         = OptionWidgets.Raises OptionWidgets.KeyError).
Proof.
  intros Hc Hw.
  destruct (EnumOptionWidget_init_returns eqb str name o cs w Hc Hw)
    as [Hb [Hcombo [Hitems Hstart]]].
  assert (Hsel : forall (k : nat) (c : A),
             nth_error cs k = Some c ->
             OptionWidgets.dict_get (Z.of_nat k) (OptionWidgets.items w) = Some c).
  { intros k c Hn. rewrite Hitems.
    assert (k < List.length cs)%nat by (apply nth_error_Some; congruence).
    destruct (Z.leb_spec 0 (Z.of_nat k)),
             (Z.ltb_spec (Z.of_nat k) (Z.of_nat (List.length cs)));
      cbn [andb]; try lia.
    now rewrite Nat2Z.id. }
  split; [|split].
  - destruct (enum_loop_startIndex eqb str (OptionWidgets.value o) cs 0
                {| OptionWidgets.startIndex := None; OptionWidgets.entries := [];
                   OptionWidgets.table := [] |}) as [Hno Hyes].
    destruct (existsb (fun c => eqb c (OptionWidgets.value o)) cs) eqn:Ex.
    + destruct (Hyes eq_refl) as [k [c [Hs [Hn [Hv _]]]]].
      rewrite Hs in Hstart. injection Hstart as Hk.
      unfold OptionWidgets.EnumOptionWidget_updateOpt.
      rewrite <- Hk. replace (0 + Z.of_nat k)%Z with (Z.of_nat k) by lia.
      rewrite (Hsel k c Hn). eexists. split; [reflexivity|]. exact Hv.
    + rewrite (Hno eq_refl) in Hstart. discriminate.
  - intros k c Hn. unfold OptionWidgets.EnumOptionWidget_updateOpt.
    cbn [OptionWidgets.select OptionWidgets.currentIndex OptionWidgets.items
         OptionWidgets.base OptionWidgets.combo].
    rewrite (Hsel k c Hn). eexists. split; [reflexivity|].
    rewrite Hb. cbn. rewrite Hcombo.
    destruct (eqb c (OptionWidgets.default o)); repeat split; reflexivity.
  - intros z Hz. unfold OptionWidgets.EnumOptionWidget_updateOpt.
    cbn [OptionWidgets.select OptionWidgets.currentIndex OptionWidgets.items].
    rewrite Hitems.
    destruct (Z.leb_spec 0 z), (Z.ltb_spec z (Z.of_nat (List.length cs)));
      cbn [andb]; try lia; reflexivity.
Qed.

(** [OptionsWidget.__init__] returns exactly when there is at least one
    option and the value of every option with choices is one of its
    choices; otherwise it raises [UnboundLocalError] (the loop variable
    [i] of an empty list, or [startIndex] of the first such option), and
    nothing else. *)
Theorem OptionsWidget_init_returns_iff
  (A : Type) (eqb : A -> A -> bool) (str : A -> string) (label_width : string -> Z)
  (opts : list (string * OptionWidgets.Opt)) :
  ((exists w, OptionWidgets.OptionsWidget_init eqb str label_width opts
              = OptionWidgets.Returns w)
   <-> opts <> []
       /\ forall (name : string) (o : OptionWidgets.Opt) (cs : list A),
            In (name, o) opts -> OptionWidgets.choices o = Some cs ->
            existsb (fun c => eqb c (OptionWidgets.value o)) cs = true)
  /\ (forall e : OptionWidgets.raised,
         OptionWidgets.OptionsWidget_init eqb str label_width opts
         = OptionWidgets.Raises e ->
         e = OptionWidgets.UnboundLocalError).
Proof.
  assert (Hl : Forall (fun no : string * OptionWidgets.Opt =>
                         match OptionWidgets.choices (snd no) with
                         | Some cs => existsb (fun c => eqb c (OptionWidgets.value (snd no))) cs
                                      = true
                         | None => True
                         end) opts
               <-> forall (name : string) (o : OptionWidgets.Opt) (cs : list A),
                     In (name, o) opts -> OptionWidgets.choices o = Some cs ->
                     existsb (fun c => eqb c (OptionWidgets.value o)) cs = true).
  { rewrite Forall_forall. split.
    - intros H name o cs Hin Hc. specialize (H (name, o) Hin). simpl in H.
      now rewrite Hc in H.
    - intros H [name o] Hin. simpl.
      destruct (OptionWidgets.choices o) as [cs|] eqn:Hc; [eauto | trivial]. }
  destruct (OptionsWidget_init_cases eqb str label_width opts)
    as [[Hne [Hall [w Hw]]]|[Hbad Hr]].
  - split.
    + split; [intros _; split; [exact Hne | now apply Hl] | eauto].
    + intros e He. congruence.
  - split.
    + split; [intros [w Hw]; congruence|].
      intros [Hne Hall]. destruct Hbad as [H|H]; [contradiction|].
      elim H. now apply Hl.
    + intros e He. congruence.
Qed.

(** The layout [OptionsWidget.__init__] builds: row [j] holds the name
    of option [j] and the field made for it, the spacer sits in the row
    after the last option, and column 0 is at least 5 wider than every
    label, being exactly 5 wider than the widest one (or than 0 when all
    widths are negative). *)
Theorem OptionsWidget_init_layout
  (A : Type) (eqb : A -> A -> bool) (str : A -> string) (label_width : string -> Z)
  (opts : list (string * OptionWidgets.Opt)) (w : OptionWidgets.OptionsWidget) :
  OptionWidgets.OptionsWidget_init eqb str label_width opts = OptionWidgets.Returns w ->
  List.length (OptionWidgets.rows w) = List.length opts
  /\ (forall (j : nat) (name : string) (o : OptionWidgets.Opt),
         nth_error opts j = Some (name, o) ->
         exists f, nth_error (OptionWidgets.rows w) j = Some (Z.of_nat j, name, f)
                   /\ OptionWidgets.make_field eqb str name o = OptionWidgets.Returns f
                   /\ (OptionWidgets.choices o <> None ->
                       exists ew, f = OptionWidgets.EnumField ew))
  /\ OptionWidgets.spacerRow w = Z.of_nat (List.length opts)
  /\ (5 <= OptionWidgets.columnMinimumWidth w)%Z
  /\ (forall (name : string) (o : OptionWidgets.Opt),
         In (name, o) opts ->
         (label_width name + 5 <= OptionWidgets.columnMinimumWidth w)%Z)
  /\ (OptionWidgets.columnMinimumWidth w = 5%Z
      \/ exists (name : string) (o : OptionWidgets.Opt),
           In (name, o) opts
           /\ OptionWidgets.columnMinimumWidth w = (label_width name + 5)%Z).
Proof.
  unfold OptionWidgets.OptionsWidget_init.
  destruct (OptionWidgets.options_loop eqb str label_width 0 opts _) as [st|e] eqn:Hst;
    [|discriminate].
  destruct (options_loop_returns eqb str label_width _ _ _ _ Hst)
    as [L [Hg [Hl [Hrows [Hi [Hw [Hall Hsome]]]]]]].
  cbn [OptionWidgets.grid OptionWidgets.i_ OptionWidgets.width app] in Hg, Hi, Hw, Hsome.
  destruct (OptionWidgets.i_ st) as [i|] eqn:Ei; [|discriminate].
  intros H. injection H as <-. cbn. rewrite Hg.
  split; [exact Hl|]. split; [|split; [|split; [|split]]].
  - intros j name o Hn. destruct (Hrows j name o Hn) as [f [Hf Hm]].
    exists f. split; [exact Hf|]. split; [exact Hm|].
    intros Hc. unfold OptionWidgets.make_field in Hm.
    destruct (OptionWidgets.choices o); [|congruence].
    destruct (OptionWidgets.EnumOptionWidget_init eqb str name o) as [ew|];
      [|discriminate].
    injection Hm as <-. eauto.
  - destruct opts as [|p opts]; [discriminate|].
    assert (Hi' : i = (0 + Z.of_nat (List.length (p :: opts)) - 1)%Z) by congruence.
    lia.
  - lia.
  - intros name o Hin. specialize (Hall name o Hin). lia.
  - destruct Hsome as [->|[name [o [Hin ->]]]]; [now left | right; eauto].
Qed.

Lemma EnumOptionWidget_init_start_witness :
  exists w,
    OptionWidgets.EnumOptionWidget_init String.eqb (fun s => s) "kernel" enum_opt
    = OptionWidgets.Returns w
    /\ OptionWidgets.currentIndex w = 2%Z
    /\ OptionWidgets.combo w = ["a"; "b"; "b"]%string.
Proof.
  destruct (EnumOptionWidget_init_start string String.eqb (fun s => s) "kernel"
              enum_opt ["a"; "b"; "b"]%string eq_refl) as [_ H].
  eexists. split; [reflexivity|].
  destruct (H _ eq_refl) as [_ [Hc _]]. split; [reflexivity | exact Hc].
Defined.

Lemma EnumOptionWidget_updateOpt_selected_witness :
  exists w w',
    OptionWidgets.EnumOptionWidget_init String.eqb (fun s => s) "kernel" enum_opt
    = OptionWidgets.Returns w
    /\ OptionWidgets.EnumOptionWidget_updateOpt String.eqb
         (OptionWidgets.select (Z.of_nat 0) w) = OptionWidgets.Returns w'
    /\ OptionWidgets.opt (OptionWidgets.base w')
       = OptionWidgets.set_value "a"%string enum_opt
    /\ OptionWidgets.label (OptionWidgets.base w') = "kernel"%string.
Proof.
  eexists.
  destruct (EnumOptionWidget_updateOpt_selected string String.eqb (fun s => s)
              "kernel" enum_opt ["a"; "b"; "b"]%string _ eq_refl eq_refl)
    as [_ [H _]].
  destruct (H O "a"%string eq_refl) as [w' [Hu [Ho [Hl _]]]].
  exists w'. split; [reflexivity|]. split; [exact Hu|]. split; [exact Ho | exact Hl].
Defined.

Lemma OptionsWidget_init_layout_witness :
  exists w,
    OptionWidgets.OptionsWidget_init String.eqb (fun s => s) text_width sample_opts
    = OptionWidgets.Returns w
    /\ OptionWidgets.spacerRow w = Z.of_nat (List.length sample_opts)
    /\ (5 <= OptionWidgets.columnMinimumWidth w)%Z.
Proof.
  eexists. split; [reflexivity|].
  destruct (OptionsWidget_init_layout string String.eqb (fun s => s) text_width
              sample_opts _ eq_refl) as [_ [_ [Hs [Hw _]]]].
  split; [exact Hs | exact Hw].
Defined.

Section MultiFacts.
Import OptionWidgets.
Context {A : Type}.
Variable eqb : A -> A -> bool.
Variable str : A -> string.
Variable label_width : string -> Z.
Variable panel_height : OptionsWidget (A := A) -> Z.

Local Abbreviation panel := (OptionsWidget (A := A) * bool)%type.

Lemma set_visible_fst (k : nat) (b : bool) (ps : list panel) :
  map fst (set_visible k b ps) = map fst ps.
Proof.
  revert k. induction ps as [|[p v] ps IH]; intros k; [destruct k; reflexivity|].
  destruct k; simpl; [reflexivity | now rewrite IH].
Qed.

Lemma set_visible_snd_nth (k : nat) (b : bool) (ps : list panel) (j : nat) :
  nth_error (map snd (set_visible k b ps)) j
  = if (j =? k)%nat then option_map (fun _ => b) (nth_error (map snd ps) j)
    else nth_error (map snd ps) j.
Proof.
  revert k j. induction ps as [|[p v] ps IH]; intros k j.
  - destruct k, j; simpl; try reflexivity. destruct (j =? k)%nat; reflexivity.
  - destruct k, j; simpl; try reflexivity. apply IH.
Qed.

Lemma hot_nth (f : nat -> bool) (n j : nat) :
  nth_error (map f (seq 0 n)) j = if (j <? n)%nat then Some (f j) else None.
Proof.
  rewrite nth_error_map, nth_error_seq. destruct (j <? n)%nat; reflexivity.
Qed.

(** Showing one panel when none is visible. *)
Lemma show_hidden (k n : nat) (ps : list panel) :
  map snd ps = map (fun _ => false) (seq 0 n) ->
  (k < n)%nat ->
  map snd (set_visible k true ps) = map (Nat.eqb k) (seq 0 n).
Proof.
  intros Hv Hk. apply nth_error_ext. intros j.
  rewrite set_visible_snd_nth, Hv, !hot_nth.
  destruct (Nat.eqb_spec j k) as [->|Hne].
  - rewrite Nat.eqb_refl. destruct (Nat.ltb_spec k n); [reflexivity | lia].
  - destruct (j <? n)%nat; [|reflexivity].
    destruct (Nat.eqb_spec k j); [congruence | reflexivity].
Qed.

(** Hiding the only visible panel. *)
Lemma hide_shown (a n : nat) (ps : list panel) :
  map snd ps = map (Nat.eqb a) (seq 0 n) ->
  map snd (set_visible a false ps) = map (fun _ => false) (seq 0 n).
Proof.
  intros Hv. apply nth_error_ext. intros j.
  rewrite set_visible_snd_nth, Hv, !hot_nth.
  destruct (Nat.eqb_spec j a) as [->|Hne].
  - destruct (a <? n)%nat; reflexivity.
  - destruct (j <? n)%nat; [|reflexivity].
    destruct (Nat.eqb_spec a j); [congruence | reflexivity].
Qed.

Lemma setActiveWidget_step (a k n : nat) (w : MultiOptionsWidget (A := A)) :
  activeOptionWidget w = Some a ->
  visible w = map (Nat.eqb a) (seq 0 n) ->
  (k < n)%nat ->
  snd (setActiveWidget (Some k) w) = None
  /\ activeOptionWidget (fst (setActiveWidget (Some k) w)) = Some k
  /\ visible (fst (setActiveWidget (Some k) w)) = map (Nat.eqb k) (seq 0 n)
  /\ map fst (panels (fst (setActiveWidget (Some k) w))) = map fst (panels w)
  /\ minimumHeight (fst (setActiveWidget (Some k) w)) = minimumHeight w.
Proof.
  intros Ha Hv Hk. unfold setActiveWidget, visible in *. rewrite Ha. cbn.
  repeat split.
  - apply show_hidden; [|exact Hk]. now apply hide_shown.
  - now rewrite !set_visible_fst.
Qed.

Lemma last_cons_default (k : nat) (ks : list nat) (a : nat) :
  last (k :: ks) a = last ks k.
Proof.
  revert k a. induction ks as [|k' ks IH]; intros k a; [reflexivity|].
  change (last (k :: k' :: ks) a) with (last (k' :: ks) a).
  rewrite IH. symmetry. apply IH.
Qed.

Lemma multi_loop_returns (conf : list (list (string * Opt)))
      (st st' : list panel * Z) :
  multi_loop eqb str label_width panel_height conf st = Returns st' ->
  exists L : list panel,
    fst st' = fst st ++ L
    /\ map snd L = map (fun _ => false) (seq 0 (List.length conf))
    /\ (forall (j : nat) (item : list (string * Opt)),
           nth_error conf j = Some item ->
           exists p, nth_error (map fst L) j = Some p
                     /\ OptionsWidget_init eqb str label_width item = Returns p
                     /\ (panel_height p <= snd st')%Z)
    /\ (snd st <= snd st')%Z.
Proof.
  revert st. induction conf as [|item conf IH]; intros st H.
  - simpl in H. injection H as <-. exists []. rewrite app_nil_r.
    repeat split; auto; try lia. intros j item Hn. destruct j; discriminate.
  - cbn [multi_loop] in H.
    destruct (OptionsWidget_init eqb str label_width item) as [p|e] eqn:Hp;
      [|discriminate].
    apply IH in H. cbn [fst snd] in H. destruct H as [L [Hf [Hv [Hrows Hh]]]].
    exists ((p, false) :: L). repeat split.
    + rewrite Hf, <- app_assoc. reflexivity.
    + cbn [List.length seq map snd]. rewrite Hv, <- seq_shift, map_map. reflexivity.
    + intros j item' Hn. destruct j; simpl in Hn.
      * injection Hn as <-. exists p. repeat split; auto. lia.
      * exact (Hrows j item' Hn).
    + lia.
Qed.

Lemma multi_loop_cases (conf : list (list (string * Opt))) (st : list panel * Z) :
  (Forall (fun item => exists p, OptionsWidget_init eqb str label_width item = Returns p)
          conf
   /\ exists st', multi_loop eqb str label_width panel_height conf st = Returns st')
  \/ (Exists (fun item => OptionsWidget_init eqb str label_width item
                          = Raises UnboundLocalError) conf
      /\ multi_loop eqb str label_width panel_height conf st = Raises UnboundLocalError).
Proof.
  revert st. induction conf as [|item conf IH]; intros st.
  - left. split; [constructor | simpl; eauto].
  - cbn [multi_loop].
    destruct (OptionsWidget_init_cases eqb str label_width item)
      as [[_ [_ [p Hp]]]|[_ Hr]].
    + rewrite Hp.
      destruct (IH (fst st ++ [(p, false)], Z.max (snd st) (panel_height p)))
        as [[Hall Hst]|[Hex Hr]].
      * left. split; [constructor; eauto | exact Hst].
      * right. split; [now apply Exists_cons_tl | exact Hr].
    + rewrite Hr. right. split; [now apply Exists_cons_hd | reflexivity].
Qed.

Lemma MultiOptionsWidget_init_unfold (conf : list (list (string * Opt)))
      (ps : list panel) (h : Z) :
  multi_loop eqb str label_width panel_height conf ([], 0%Z) = Returns (ps, h) ->
  conf <> [] ->
  MultiOptionsWidget_init eqb str label_width panel_height conf
  = Returns {| panels := set_visible 0 true ps;
               activeOptionWidget := Some O;
               minimumHeight := h |}.
Proof.
  intros H Hne. unfold MultiOptionsWidget_init. rewrite H.
  destruct (multi_loop_returns _ _ _ H) as [L [Hf [Hv _]]].
  cbn [fst app] in Hf. subst L.
  destruct ps as [|q ps]; [|reflexivity].
  destruct conf; [congruence | discriminate].
Qed.

End MultiFacts.

(** [MultiOptionsWidget.__init__] returns exactly when there is at least
    one group of options and an [OptionsWidget] can be built for every
    group.  With no group it raises [AttributeError] on [None] (there is
    no current item); when some group fails it raises that group's
    [UnboundLocalError]; it raises nothing else. *)
Theorem MultiOptionsWidget_init_returns_iff
  (A : Type) (eqb : A -> A -> bool) (str : A -> string) (label_width : string -> Z)
  (panel_height : OptionWidgets.OptionsWidget (A := A) -> Z)
  (conf : list (list (string * OptionWidgets.Opt))) :
  ((exists w, OptionWidgets.MultiOptionsWidget_init eqb str label_width panel_height conf
              = OptionWidgets.Returns w)
   <-> conf <> []
       /\ forall item, In item conf ->
            exists p, OptionWidgets.OptionsWidget_init eqb str label_width item
                      = OptionWidgets.Returns p)
  /\ (OptionWidgets.MultiOptionsWidget_init eqb str label_width panel_height conf
      = OptionWidgets.Raises OptionWidgets.NoneAttributeError
      <-> conf = [])
  /\ (OptionWidgets.MultiOptionsWidget_init eqb str label_width panel_height conf
      = OptionWidgets.Raises OptionWidgets.UnboundLocalError
      <-> exists item, In item conf
                       /\ OptionWidgets.OptionsWidget_init eqb str label_width item
                          = OptionWidgets.Raises OptionWidgets.UnboundLocalError)
  /\ (forall e : OptionWidgets.raised,
         OptionWidgets.MultiOptionsWidget_init eqb str label_width panel_height conf
         = OptionWidgets.Raises e ->
         e = OptionWidgets.NoneAttributeError \/ e = OptionWidgets.UnboundLocalError).
Proof.
  destruct (multi_loop_cases eqb str label_width panel_height conf ([], 0%Z))
    as [[Hall [[ps h] Hst]]|[Hex Hr]].
  - rewrite Forall_forall in Hall.
    destruct conf as [|item conf].
    + simpl in Hst. injection Hst as <- <-.
      unfold OptionWidgets.MultiOptionsWidget_init. simpl.
      split; [|split; [|split]].
      * split; [intros [w Hw]; discriminate | intros [H _]; now elim H].
      * split; reflexivity.
      * split; [discriminate | intros [item [[] _]]].
      * intros e He. injection He as <-. now left.
    + rewrite (MultiOptionsWidget_init_unfold eqb str label_width panel_height
                 _ _ _ Hst) by discriminate.
      split; [|split; [|split]].
      * split; [intros _; split; [discriminate | exact Hall] | eauto].
      * split; discriminate.
      * split; [discriminate|]. intros [it [Hin Hit]].
        destruct (Hall it Hin) as [p Hp]. congruence.
      * intros e He. discriminate.
  - unfold OptionWidgets.MultiOptionsWidget_init. rewrite Hr.
    apply Exists_exists in Hex. destruct Hex as [it [Hin Hit]].
    split; [|split; [|split]].
    + split; [intros [w Hw]; discriminate|].
      intros [_ Hall]. destruct (Hall it Hin) as [p Hp]. congruence.
    + split; [discriminate | intros ->; destruct Hin].
    + split; [eauto | reflexivity].
    + intros e He. injection He as <-. now right.
Qed.

(** After [MultiOptionsWidget.__init__] the first panel is the active
    one and the only one shown; there is one panel per group, built from
    that group, and the minimum height is non-negative and at least the
    height of every panel. *)
Theorem MultiOptionsWidget_init_shows_first
  (A : Type) (eqb : A -> A -> bool) (str : A -> string) (label_width : string -> Z)
  (panel_height : OptionWidgets.OptionsWidget (A := A) -> Z)
  (conf : list (list (string * OptionWidgets.Opt)))
  (w : OptionWidgets.MultiOptionsWidget) :
  OptionWidgets.MultiOptionsWidget_init eqb str label_width panel_height conf
  = OptionWidgets.Returns w ->
  OptionWidgets.activeOptionWidget w = Some O
  /\ OptionWidgets.visible w = map (Nat.eqb 0) (seq 0 (List.length conf))
  /\ List.length (OptionWidgets.panels w) = List.length conf
  /\ (forall (j : nat) (item : list (string * OptionWidgets.Opt)),
         nth_error conf j = Some item ->
         exists p, nth_error (map fst (OptionWidgets.panels w)) j = Some p
                   /\ OptionWidgets.OptionsWidget_init eqb str label_width item
                      = OptionWidgets.Returns p
                   /\ (panel_height p <= OptionWidgets.minimumHeight w)%Z)
  /\ (0 <= OptionWidgets.minimumHeight w)%Z.
Proof.
  intros Hw.
  destruct (OptionWidgets.multi_loop eqb str label_width panel_height conf ([], 0%Z))
    as [[ps h]|e] eqn:Hst.
  - destruct (multi_loop_returns eqb str label_width panel_height _ _ _ Hst)
      as [L [Hf [Hv [Hrows Hh]]]].
    cbn [fst snd app] in Hf, Hrows, Hh. subst L.
    destruct conf as [|item conf].
    + unfold OptionWidgets.MultiOptionsWidget_init in Hw. simpl in Hw.
      discriminate.
    + rewrite (MultiOptionsWidget_init_unfold eqb str label_width panel_height
                 _ _ _ Hst) in Hw by discriminate.
      assert (Hw' : w = {| OptionWidgets.panels := OptionWidgets.set_visible 0 true ps;
                           OptionWidgets.activeOptionWidget := Some O;
                           OptionWidgets.minimumHeight := h |}) by congruence.
      subst w. clear Hw. unfold OptionWidgets.visible.
      cbn [OptionWidgets.activeOptionWidget OptionWidgets.panels
           OptionWidgets.minimumHeight].
      split; [reflexivity|]. split; [|split; [|split]].
      * apply show_hidden; [exact Hv | simpl; lia].
      * rewrite <- (length_map fst), set_visible_fst, (length_map fst),
          <- (length_map snd), Hv, length_map, length_seq. reflexivity.
      * rewrite set_visible_fst. exact Hrows.
      * exact Hh.
  - unfold OptionWidgets.MultiOptionsWidget_init in Hw. rewrite Hst in Hw.
    discriminate.
Qed.

(** [setActiveWidget] keeps exactly one panel shown: if the active panel
    is the only visible one, then after any sequence of selections of
    existing items the last selected panel is the active one and the
    only visible one, no call raises, and the panels themselves and the
    minimum height are untouched.  A call with [None] (no current item)
    then hides that panel before it raises, leaving nothing shown. *)
Theorem setActiveWidget_one_visible
  (A : Type) (w : OptionWidgets.MultiOptionsWidget (A := A)) (a n : nat)
  (ks : list nat) :
  OptionWidgets.activeOptionWidget w = Some a ->
  OptionWidgets.visible w = map (Nat.eqb a) (seq 0 n) ->
  Forall (fun k => (k < n)%nat) ks ->
  let select := fun w k => fst (OptionWidgets.setActiveWidget (Some k) w) in
  let w' := fold_left select ks w in
  OptionWidgets.activeOptionWidget w' = Some (last ks a)
  /\ OptionWidgets.visible w' = map (Nat.eqb (last ks a)) (seq 0 n)
  /\ map fst (OptionWidgets.panels w') = map fst (OptionWidgets.panels w)
  /\ OptionWidgets.minimumHeight w' = OptionWidgets.minimumHeight w
  /\ (forall (pre post : list nat) (k : nat),
         ks = pre ++ k :: post ->
         snd (OptionWidgets.setActiveWidget (Some k) (fold_left select pre w)) = None)
  /\ snd (OptionWidgets.setActiveWidget None w') = Some OptionWidgets.NoneAttributeError
  /\ OptionWidgets.visible (fst (OptionWidgets.setActiveWidget None w'))
     = map (fun _ => false) (seq 0 n)
  /\ OptionWidgets.activeOptionWidget (fst (OptionWidgets.setActiveWidget None w'))
     = Some (last ks a).
Proof.
  intros Ha Hv Hks. cbv zeta.
  revert w a Ha Hv. induction Hks as [|k ks Hk Hks IH]; intros w a Ha Hv.
  - cbn [fold_left last].
    split; [exact Ha|]. split; [exact Hv|]. split; [reflexivity|].
    split; [reflexivity|].
    split; [intros pre post k H; destruct pre; discriminate|].
    unfold OptionWidgets.setActiveWidget, OptionWidgets.visible. rewrite Ha.
    cbn [fst snd OptionWidgets.panels OptionWidgets.activeOptionWidget].
    split; [reflexivity|]. split; [|reflexivity].
    apply hide_shown. exact Hv.
  - destruct (setActiveWidget_step a k n w Ha Hv Hk) as [Hn [Ha' [Hv' [Hp' Hm']]]].
    cbn [fold_left]. rewrite last_cons_default.
    destruct (IH _ k Ha' Hv') as [H1 [H2 [H3 [H4 [H5 [H6 [H7 H8]]]]]]].
    split; [exact H1|]. split; [exact H2|]. split; [congruence|].
    split; [congruence|]. split; [|split; [exact H6|split; [exact H7 | exact H8]]].
    intros pre post k' Heq. destruct pre as [|k0 pre]; simpl in Heq.
    + injection Heq as <- _. exact Hn.
    + injection Heq as <- ->. cbn [fold_left]. eapply H5. reflexivity.
Qed.

Lemma MultiOptionsWidget_init_shows_first_witness :
  exists w,
    OptionWidgets.MultiOptionsWidget_init String.eqb (fun s => s) text_width
      rows_height sample_conf = OptionWidgets.Returns w
    /\ OptionWidgets.visible w = [true; false; false]
    /\ (0 <= OptionWidgets.minimumHeight w)%Z.
Proof.
  eexists. split; [reflexivity|].
  destruct (MultiOptionsWidget_init_shows_first string String.eqb (fun s => s)
              text_width rows_height sample_conf _ eq_refl) as [_ [Hv [_ [_ Hh]]]].
  split; [exact Hv | exact Hh].
Defined.

Lemma setActiveWidget_one_visible_witness :
  exists w,
    OptionWidgets.MultiOptionsWidget_init String.eqb (fun s => s) text_width
      rows_height sample_conf = OptionWidgets.Returns w
    /\ OptionWidgets.visible
         (fold_left (fun w k => fst (OptionWidgets.setActiveWidget (Some k) w))
                    [2; 1; 1]%nat w)
       = [false; true; false].
Proof.
  eexists. split; [reflexivity|].
  assert (Hks : Forall (fun k => (k < 3)%nat) [2; 1; 1]%nat)
    by (repeat constructor).
  match goal with
  | |- OptionWidgets.visible (fold_left _ _ ?w) = _ =>
      destruct (setActiveWidget_one_visible string w O 3%nat [2; 1; 1]%nat
                  eq_refl eq_refl Hks) as [_ [Hv _]]
  end.
  exact Hv.
Defined.

Section EditFacts.
Import OptionWidgets.
Context {A : Type}.
Variable eqb : A -> A -> bool.
Variable parse : string -> option A.

Local Abbreviation edit := (fun w t => NumericOptionWidget_updateOpt eqb parse t w).

Lemma edit_frame (w : OptionWidget) (t : string) :
  optName (edit w t) = optName w
  /\ default (opt (edit w t)) = default (opt w)
  /\ choices (opt (edit w t)) = choices (opt w)
  /\ value (opt (edit w t))
     = match parse t with Some v => v | None => value (opt w) end
  /\ label (edit w t)
     = if eqb (value (opt (edit w t))) (default (opt w)) then optName w
       else ("<i>" ++ optName w ++ "</i>")%string.
Proof.
  unfold NumericOptionWidget_updateOpt, checkDefault.
  destruct (parse t) as [v|]; cbn;
    repeat split; match goal with |- context [eqb ?a ?b] => destruct (eqb a b) end;
    reflexivity.
Qed.

Lemma edits_frame (texts : list string) (w : OptionWidget) :
  optName (fold_left edit texts w) = optName w
  /\ default (opt (fold_left edit texts w)) = default (opt w)
  /\ choices (opt (fold_left edit texts w)) = choices (opt w).
Proof.
  revert w. induction texts as [|t texts IH]; intros w; [auto|].
  cbn [fold_left]. destruct (IH (edit w t)) as [H1 [H2 H3]].
  destruct (edit_frame w t) as [F1 [F2 [F3 _]]].
  repeat split; congruence.
Qed.

Lemma edits_rejected (texts : list string) (w : OptionWidget) :
  Forall (fun t => parse t = None) texts ->
  value (opt (fold_left edit texts w)) = value (opt w).
Proof.
  intros H. revert w. induction H as [|t texts Ht H IH]; intros w; [reflexivity|].
  cbn [fold_left]. rewrite IH.
  destruct (edit_frame w t) as [_ [_ [_ [Hv _]]]]. rewrite Hv, Ht. reflexivity.
Qed.

Lemma edits_snoc (texts : list string) (t : string) (w : OptionWidget) :
  fold_left edit (texts ++ [t]) w = edit (fold_left edit texts w) t.
Proof.
  rewrite fold_left_app. reflexivity.
Qed.

End EditFacts.

(** Editing the text of a [NumericOptionWidget] or an
    [IntegerOptionWidget]: after any sequence of edits the option holds
    the number of the last text that is one (text that is not a number
    is ignored, so with none the value is the original one), only the
    value and the label change, and after at least one edit the label is
    the name, in italics exactly when the value differs from the
    default. *)
Theorem NumericOptionWidget_edits
  (A : Type) (eqb : A -> A -> bool) (parse : string -> option A)
  (updateOpt : string -> OptionWidgets.OptionWidget -> OptionWidgets.OptionWidget)
  (texts : list string) (w : OptionWidgets.OptionWidget) :
  updateOpt = OptionWidgets.NumericOptionWidget_updateOpt eqb parse
  \/ updateOpt = OptionWidgets.IntegerOptionWidget_updateOpt eqb parse ->
  let w' := fold_left (fun w t => updateOpt t w) texts w in
  (Forall (fun t => parse t = None) texts ->
   OptionWidgets.value (OptionWidgets.opt w') = OptionWidgets.value (OptionWidgets.opt w))
  /\ (forall (pre post : list string) (t : string) (v : A),
         texts = pre ++ t :: post -> parse t = Some v ->
         Forall (fun t' => parse t' = None) post ->
         OptionWidgets.value (OptionWidgets.opt w') = v)
  /\ OptionWidgets.optName w' = OptionWidgets.optName w
  /\ OptionWidgets.default (OptionWidgets.opt w')
     = OptionWidgets.default (OptionWidgets.opt w)
  /\ OptionWidgets.choices (OptionWidgets.opt w')
     = OptionWidgets.choices (OptionWidgets.opt w)
  /\ (texts <> [] ->
      OptionWidgets.label w'
      = if eqb (OptionWidgets.value (OptionWidgets.opt w'))
               (OptionWidgets.default (OptionWidgets.opt w))
        then OptionWidgets.optName w
        else ("<i>" ++ OptionWidgets.optName w ++ "</i>")%string).
Proof.
  intros Hu.
  assert (Hn : updateOpt = OptionWidgets.NumericOptionWidget_updateOpt eqb parse)
    by (destruct Hu as [->| ->]; reflexivity).
  subst updateOpt. cbv zeta.
  destruct (edits_frame eqb parse texts w) as [F1 [F2 F3]].
  split; [apply edits_rejected|]. split; [|split; [exact F1|split; [exact F2|split; [exact F3|]]]].
  - intros pre post t v -> Ht Hpost.
    rewrite fold_left_app. cbn [fold_left].
    rewrite (edits_rejected eqb parse post _ Hpost).
    destruct (edit_frame eqb parse (fold_left (fun w t => OptionWidgets.NumericOptionWidget_updateOpt eqb parse t w) pre w) t)
      as [_ [_ [_ [Hv _]]]].
    rewrite Hv, Ht. reflexivity.
  - intros Hne. destruct (exists_last Hne) as [pre [t ->]].
    rewrite edits_snoc.
    destruct (edits_frame eqb parse pre w) as [P1 [P2 _]].
    destruct (edit_frame eqb parse (fold_left (fun w t => OptionWidgets.NumericOptionWidget_updateOpt eqb parse t w) pre w) t)
      as [_ [_ [_ [_ Hl]]]].
    rewrite Hl, P1, P2. reflexivity.
Qed.

Lemma NumericOptionWidget_edits_witness :
  OptionWidgets.value
    (OptionWidgets.opt
       (fold_left (fun w t => OptionWidgets.IntegerOptionWidget_updateOpt
                                String.eqb sample_float t w)
                  ["12"; "1 e"; ""]%string
                  (OptionWidgets.OptionWidget_init "nPoints" text_opt)))
  = "12"%string.
Proof.
  assert (Hpost : Forall (fun t => sample_float t = None) ["1 e"; ""]%string)
    by (repeat constructor).
  destruct (NumericOptionWidget_edits string String.eqb sample_float
              (OptionWidgets.IntegerOptionWidget_updateOpt String.eqb sample_float)
              ["12"; "1 e"; ""]%string
              (OptionWidgets.OptionWidget_init "nPoints" text_opt)
              (or_intror eq_refl)) as [_ [H _]].
  exact (H [] ["1 e"; ""]%string "12"%string "12"%string eq_refl eq_refl Hpost).
Defined.
